(** * Panel layout and colour choice of [codes/viz.py]

    A shallow embedding of the plotting helpers of [codes/viz.py]
    ([read_data], [hist_plot], [hist_panel], [box_plot], [COLORS]) and the
    properties of the panel layout they compute.

    Python integers are unbounded, hence [Z]; [//] and [%] are floor division
    and the remainder that takes the sign of the divisor, which is what
    [Z.div] and [Z.modulo] compute, except that Python raises
    [ZeroDivisionError] on a zero divisor.  Exceptions are values of [exn];
    code that mutates the figure or draws random numbers runs in a state
    monad that keeps the state reached when an exception is raised. *)

From Stdlib Require Import ZArith String List Bool Lia.
Import ListNotations.
Open Scope Z_scope.

(** ** Python values and exceptions *)

Inductive exn : Type :=
| ZeroDivisionError
| ValueError
| IndexError
| TypeError
| KeyError
| FileNotFoundError.

Inductive result (A : Type) : Type :=
| Ok (a : A)
| Raise (e : exn).

Arguments Ok {A} a.
Arguments Raise {A} e.

Definition result_bind {A B} (r : result A) (k : A -> result B) : result B :=
  match r with
  | Ok a => k a
  | Raise e => Raise e
  end.

(** [a // b] *)
Definition floordiv (a b : Z) : result Z :=
  if b =? 0 then Raise ZeroDivisionError else Ok (a / b).

(** [a % b] *)
Definition pymod (a b : Z) : result Z :=
  if b =? 0 then Raise ZeroDivisionError else Ok (a mod b).

(** [range(n)] *)
Definition range (n : Z) : list Z :=
  map Z.of_nat (seq 0 (Z.to_nat n)).

(** ** The layout arithmetic *)

Module Layout.

(** [fig_cols = 2] in [box_plot]; the literal [2] of [hist_panel]. *)
Definition fig_cols : Z := 2.

(** [fig_rows = n_cols // fig_cols] ([box_plot]) and [rows = count // 2]
    ([hist_panel]), with the number of columns of the grid as an argument. *)
Definition fig_rows (n_cols cols : Z) : result Z :=
  floordiv n_cols cols.

(** The index pair of [axes[i // fig_cols, i % fig_cols]] in [box_plot]. *)
Definition cell_index (cols i : Z) : result (Z * Z) :=
  result_bind (floordiv i cols) (fun r =>
  result_bind (pymod i cols) (fun c =>
  Ok (r, c))).

(** The one-based position [i + 1] that [hist_panel] hands to
    [fig.add_subplot(rows, 2, i + 1)]. *)
Definition subplot_num (i : Z) : Z := i + 1.

(** The plotting library numbers the cells of an [nrows] by [ncols] grid from
    [1], left to right and then top to bottom: position [num] is the cell
    [((num - 1) div ncols, (num - 1) mod ncols)]. *)
Definition subplot_cell (ncols num : Z) : Z * Z :=
  ((num - 1) / ncols, (num - 1) mod ncols).

(** A cell lies in the grid. *)
Definition in_grid (nrows ncols : Z) (cell : Z * Z) : bool :=
  (0 <=? fst cell) && (fst cell <? nrows) &&
  (0 <=? snd cell) && (snd cell <? ncols).

End Layout.

(** ** The palette

    A colour is a triple of red, green and blue channels; channel value [n]
    stands for the float [n / 255] of the plotting library. *)

Definition color : Type := (Z * Z * Z)%type.

(** [sns.color_palette("Set2")]: the eight colours of the qualitative
    ColorBrewer palette Set2, in order. *)
Definition Set2 : list color :=
  [ (102, 194, 165); (252, 141, 98); (141, 160, 203); (231, 138, 195);
    (166, 216, 84); (255, 217, 47); (229, 196, 148); (179, 179, 179) ].

(** [sns.color_palette("Set3")]: the twelve colours of the qualitative
    ColorBrewer palette Set3, in order. *)
Definition Set3 : list color :=
  [ (141, 211, 199); (255, 255, 179); (190, 186, 218); (251, 128, 114);
    (128, 177, 211); (253, 180, 98); (179, 222, 105); (252, 205, 229);
    (217, 217, 217); (188, 128, 189); (204, 235, 197); (255, 237, 111) ].

(** [COLORS = list(sns.color_palette("Set2")) + list(sns.color_palette("Set3"))] *)
Definition COLORS : list color := Set2 ++ Set3.

Definition color_eqb (a b : color) : bool :=
  let '(r1, g1, b1) := a in
  let '(r2, g2, b2) := b in
  (r1 =? r2) && (g1 =? g2) && (b1 =? b2).

(** No colour of the list occurs twice. *)
Fixpoint distinct (l : list color) : bool :=
  match l with
  | [] => true
  | c :: rest => negb (existsb (color_eqb c) rest) && distinct rest
  end.

(** ** Data frames

    A frame is the ordered list of its named columns; a missing value (NaN,
    NaT, an empty field of the file) is [NA].  The functions of the file
    compute with no value of a cell, so the cells are told apart only as
    far as the functions are: missing, text, number (an integer stands for
    any number) or timestamp. *)

Inductive cell : Type :=
| NA
| Str (s : string)
| Int (z : Z)
| Datetime (t : Z).

Definition Series : Type := list cell.
Definition DataFrame : Type := list (string * Series).

(** [data.columns] *)
Definition columns (data : DataFrame) : list string := map fst data.

(** [data.shape[1]] *)
Definition shape1 (data : DataFrame) : Z := Z.of_nat (length data).

(** [data.shape[0]] *)
Definition shape0 (data : DataFrame) : nat :=
  match data with
  | [] => 0%nat
  | (_, s) :: _ => length s
  end.

(** [enumerate(xs)] *)
Definition enumerate {A} (xs : list A) : list (Z * A) :=
  combine (range (Z.of_nat (length xs))) xs.

(** ** The plotting state

    What the panel functions build: figures holding axes, each axes placed at
    a one-based position of a grid and holding the plots drawn on it. *)

Inductive plot_kind : Type :=
| Histogram (cut : bool)
| BoxPlot.

Record artist : Type := mkArtist {
  art_kind : plot_kind;
  art_var : Z;            (* index of the plotted column of the data *)
  art_color : color
}.

Record axes : Type := mkAxes {
  ax_nrows : Z;
  ax_ncols : Z;
  ax_num : Z;             (* one-based position in the grid *)
  ax_artists : list artist
}.

Record figure : Type := mkFigure {
  fig_size : Z * Z;
  fig_axes : list axes;   (* in order of creation *)
  fig_suptitle : option string;
  fig_despined : bool
}.

(** The state the functions run in.  [strict_sizes] tells whether the
    installed plotting library refuses a figure of size zero (a library that
    accepts it has [false]); no operation changes it.
    [figs] is the list of figures, the newest first.  The random generator is
    the sequence [draws] of numbers it will produce and the count [drawn] of
    those already used. *)
Record world : Type := mkWorld {
  strict_sizes : bool;
  figs : list figure;
  draws : nat -> nat;
  drawn : nat
}.

Definition M (A : Type) : Type := world -> result A * world.

Definition ret {A} (a : A) : M A := fun w => (Ok a, w).

Definition bind {A B} (m : M A) (k : A -> M B) : M B :=
  fun w =>
    match m w with
    | (Ok a, w') => k a w'
    | (Raise e, w') => (Raise e, w')
    end.

Definition lift {A} (r : result A) : M A := fun w => (r, w).

Notation "x <- m ;; k" := (bind m (fun x => k))
  (at level 61, m at next level, right associativity).
Notation "m ;;; k" := (bind m (fun _ => k))
  (at level 61, right associativity).

(** [for x in xs: body(x)]: the first exception ends the loop. *)
Fixpoint for_each {A} (xs : list A) (body : A -> M unit) : M unit :=
  match xs with
  | [] => ret tt
  | x :: rest => body x ;;; for_each rest body
  end.

(** ** The plotting library, as far as the panel functions use it *)

Definition set_figs (w : world) (fs : list figure) : world :=
  mkWorld (strict_sizes w) fs (draws w) (drawn w).

Definition set_axes (fg : figure) (axs : list axes) : figure :=
  mkFigure (fig_size fg) axs (fig_suptitle fg) (fig_despined fg).

Definition add_artist (a : artist) (ax : axes) : axes :=
  mkAxes (ax_nrows ax) (ax_ncols ax) (ax_num ax) (ax_artists ax ++ [a]).

Fixpoint update_nth {A} (n : nat) (f : A -> A) (l : list A) : list A :=
  match l, n with
  | [], _ => []
  | x :: rest, O => f x :: rest
  | x :: rest, S n' => x :: update_nth n' f rest
  end.

(** An operation on the figure the function has created, the newest one.
    (The functions below create their figure before they use it, so the
    first branch is never taken by them.) *)
Definition modify_fig (f : figure -> figure) : M unit :=
  fun w =>
    match figs w with
    | [] => (Raise ValueError, w)
    | fg :: older => (Ok tt, set_figs w (f fg :: older))
    end.

(** The library accepts the position [num] in an [nrows] by [ncols] grid
    when the grid has positive dimensions and [1 <= num <= nrows * ncols];
    it raises [ValueError] otherwise. *)
Definition position_ok (nrows ncols num : Z) : bool :=
  (0 <? nrows) && (0 <? ncols) && (1 <=? num) && (num <=? nrows * ncols).

(** [fig.add_subplot(nrows, ncols, num)]: a new, empty axes at position
    [num]; the result is the handle of the axes, its index in the figure. *)
Definition add_subplot (nrows ncols num : Z) : M nat :=
  fun w =>
    if position_ok nrows ncols num then
      match figs w with
      | [] => (Raise ValueError, w)
      | fg :: older =>
          (Ok (length (fig_axes fg)),
           set_figs w
             (set_axes fg (fig_axes fg ++ [mkAxes nrows ncols num []]) :: older))
      end
    else (Raise ValueError, w).

(** The array of axes that [plt.subplots] returns, after its default
    [squeeze=True]: a single axes for a one by one grid, a one-dimensional
    array for a single row or a single column, a two-dimensional array
    otherwise.  The axes of the grid are the first of their figure, row by
    row. *)
Inductive axarr : Type :=
| AxSingle
| Ax1 (len : Z)
| Ax2 (nrows ncols : Z).

Definition squeeze (nrows ncols : Z) : axarr :=
  if nrows * ncols =? 1 then AxSingle
  else if nrows =? 1 then Ax1 ncols
  else if ncols =? 1 then Ax1 nrows
  else Ax2 nrows ncols.

(** [plt.subplots(nrows=nrows, ncols=ncols, figsize=figsize)]: a library
    with [strict_sizes] refuses a figure size that is not positive, before
    anything is created; otherwise the figure is created first, and a grid
    without a row or without a column is then refused with [ValueError],
    which leaves the empty figure behind.  The axes of the grid are created
    row by row. *)
Definition plt_subplots (nrows ncols : Z) (figsize : Z * Z) : M axarr :=
  fun w =>
    if strict_sizes w && negb ((0 <? fst figsize) && (0 <? snd figsize))
    then (Raise ValueError, w)
    else
      if (0 <? nrows) && (0 <? ncols) then
        (Ok (squeeze nrows ncols),
         set_figs w
           (mkFigure figsize
              (map (fun k => mkAxes nrows ncols (k + 1) []) (range (nrows * ncols)))
              None false :: figs w))
      else
        (Raise ValueError,
         set_figs w (mkFigure figsize [] None false :: figs w)).

(** An index [i] into an array dimension of length [n]: negative indices
    count from the end, anything outside [-n <= i < n] is an [IndexError]. *)
Definition norm_index (i n : Z) : result Z :=
  if (0 <=? i) && (i <? n) then Ok i
  else if (- n <=? i) && (i <? 0) then Ok (i + n)
  else Raise IndexError.

(** [axes[r, c]]: the handle of the axes at row [r] and column [c]. *)
Definition getitem2 (arr : axarr) (r c : Z) : result nat :=
  match arr with
  | AxSingle => Raise TypeError
  | Ax1 _ => Raise IndexError
  | Ax2 nrows ncols =>
      result_bind (norm_index r nrows) (fun r' =>
      result_bind (norm_index c ncols) (fun c' =>
      Ok (Z.to_nat (r' * ncols + c'))))
  end.

(** Drawing a plot on the axes with handle [h]. *)
Definition draw (h : nat) (a : artist) : M unit :=
  modify_fig (fun fg => set_axes fg (update_nth h (add_artist a) (fig_axes fg))).

(** [random.choice(seq)]: the element at the index the generator draws below
    [len(seq)]; [IndexError] on an empty sequence. *)
Definition random_choice {A} (seq : list A) : M A :=
  fun w =>
    match seq with
    | [] => (Raise IndexError, w)
    | d :: _ =>
        (Ok (nth (Nat.modulo (draws w (drawn w)) (length seq)) seq d),
         mkWorld (strict_sizes w) (figs w) (draws w) (S (drawn w)))
    end.

(** [fig.suptitle(panel_title, ...)] *)
Definition suptitle (t : string) : M unit :=
  modify_fig (fun fg =>
    mkFigure (fig_size fg) (fig_axes fg) (Some t) (fig_despined fg)).

(** [sns.despine()] *)
Definition despine : M unit :=
  modify_fig (fun fg =>
    mkFigure (fig_size fg) (fig_axes fg) (fig_suptitle fg) true).

(** ** The panel functions *)

(** [data.iloc[:, i]]: the column at position [i], counted from the end when
    [i] is negative; [IndexError] outside the frame. *)
Definition iloc (data : DataFrame) (i : Z) : result Series :=
  result_bind (norm_index i (shape1 data)) (fun k =>
  match nth_error data (Z.to_nat k) with
  | Some col => Ok (snd col)
  | None => Raise IndexError
  end).

Definition is_str (c : cell) : bool :=
  match c with Str _ => true | _ => false end.

Definition is_int (c : cell) : bool :=
  match c with Int _ => true | _ => false end.

Definition is_datetime (c : cell) : bool :=
  match c with Datetime _ => true | _ => false end.

Definition has_value (c : cell) : bool :=
  match c with NA => false | _ => true end.

(** Whether [hist_plot] can draw the histogram of [ds].  Its first lines,
    [xlim = (ds.min(), [ds.max(), ds.quantile(0.95)][int(cut)])] and
    [ax.hist(ds, range=xlim, ...)], compute the least and the greatest value
    and the quantile whatever [cut] is: on a column that holds a string (or
    numbers and timestamps together) the quantile raises [TypeError]; on a
    column without any value, empty or all missing, the limits are not
    finite and [ax.hist] raises [ValueError]. *)
Definition histogram_outcome (ds : Series) : result unit :=
  if existsb is_str ds || (existsb is_int ds && existsb is_datetime ds)
  then Raise TypeError
  else if existsb has_value ds then Ok tt
  else Raise ValueError.

(** [hist_plot(ax, ds, col, cut)], where [ds] is column [var] of the data:
    one histogram in colour [col] on [ax], when it can be drawn.  (The axis
    labels are not part of the model.) *)
Definition hist_plot (ax : nat) (ds : Series) (var : Z) (col : color)
    (cut : bool) : M unit :=
  lift (histogram_outcome ds) ;;;
  draw ax (mkArtist (Histogram cut) var col).

(** The body of the loop of [hist_panel]; the arguments of the call of
    [hist_plot] are evaluated in order, the colour last. *)
Definition hist_panel_body (rows cols : Z) (cut : bool) (data : DataFrame)
    (i : Z) : M unit :=
  ax_sub <- add_subplot rows cols (Layout.subplot_num i) ;;
  ds <- lift (iloc data i) ;;
  col <- random_choice COLORS ;;
  hist_plot ax_sub ds i col cut.

(** [hist_panel(data, panel_title, cut)], with the [2] of [count // 2] and of
    [add_subplot(rows, 2, i + 1)] as the argument [cols]. *)
Definition hist_panel_on (cols : Z) (data : DataFrame) (panel_title : string)
    (cut : bool) : M unit :=
  let count := shape1 data in
  rows <- lift (Layout.fig_rows count cols) ;;
  plt_subplots 1 1 (20, rows * 4) ;;;
  for_each (range count) (hist_panel_body rows cols cut data) ;;;
  suptitle panel_title.

Definition hist_panel : DataFrame -> string -> bool -> M unit :=
  hist_panel_on 2.

(** [axes[i // fig_cols, i % fig_cols]] *)
Definition axes_at (arr : axarr) (cols i : Z) : M nat :=
  rc <- lift (Layout.cell_index cols i) ;;
  lift (getitem2 arr (fst rc) (snd rc)).

(** The body of the loop of [box_plot]. *)
Definition box_plot_body (arr : axarr) (cols : Z) (ic : Z * string) : M unit :=
  let i := fst ic in
  ax <- axes_at arr cols i ;;
  col <- random_choice COLORS ;;
  draw ax (mkArtist BoxPlot i col).

(** [box_plot(data)], with the local [fig_cols] as an argument. *)
Definition box_plot_on (cols : Z) (data : DataFrame) : M unit :=
  let n_cols := shape1 data in
  fig_rows <- lift (Layout.fig_rows n_cols cols) ;;
  arr <- plt_subplots fig_rows cols (20, fig_rows * 4) ;;
  for_each (enumerate (columns data)) (box_plot_body arr cols) ;;;
  despine.

Definition box_plot : DataFrame -> M unit :=
  box_plot_on Layout.fig_cols.

(** A frame of [n] columns of numbers, for concrete runs of [hist_panel]. *)
Definition numeric_frame (n : nat) : DataFrame :=
  map (fun k => (String (Ascii.ascii_of_nat (65 + k)) EmptyString,
                 [Int (Z.of_nat k); Int 7; Int 12]))
      (seq 0 n).

(** Every column of the frame can be drawn as a histogram. *)
Definition plottable (data : DataFrame) : Prop :=
  Forall (fun col => histogram_outcome (snd col) = Ok tt) data.

(** A frame of [n] columns without rows, and a state without figures. *)
Definition frame_of_width (n : nat) : DataFrame :=
  map (fun k => (String (Ascii.ascii_of_nat (65 + k)) EmptyString, @nil cell))
      (seq 0 n).

Definition init_world (strict : bool) (rng : nat -> nat) : world :=
  mkWorld strict [] rng 0.

(** ** Loading the data *)

(** [INPUT_DIR = "../data/"] *)
Definition INPUT_DIR : string := "../data/".

(** What lies outside the program: the outcome of reading and parsing the
    file at a path (a frame, or the exception the reader raises), and the
    outcome of [pd.to_datetime] on a column (the column of timestamps, or
    the exception the library raises). *)
Record storage : Type := mkStorage {
  csv_at : string -> result DataFrame;
  pd_to_datetime : Series -> result Series
}.

(** Reading runs against the log of the paths read so far. *)
Definition IO (A : Type) : Type := list string -> result A * list string.

(** [pd.read_csv(path)] *)
Definition read_csv (env : storage) (path : string) : IO DataFrame :=
  fun log => (csv_at env path, log ++ [path]).

Definition is_na (c : cell) : bool :=
  match c with NA => true | _ => false end.

(** Row [k] of a frame. *)
Definition row (data : DataFrame) (k : nat) : list cell :=
  map (fun col => nth k (snd col) NA) data.

Definition rows (data : DataFrame) : list (list cell) :=
  map (row data) (seq 0 (shape0 data)).

Definition row_complete (r : list cell) : bool :=
  forallb (fun c => negb (is_na c)) r.

(** [data.dropna(axis=0, inplace=True)]: the rows without a missing value
    are kept, in order. *)
Definition dropna (data : DataFrame) : DataFrame :=
  let keep := filter (fun k => row_complete (row data k)) (seq 0 (shape0 data)) in
  map (fun col => (fst col, map (fun k => nth k (snd col) NA) keep)) data.

(** [data[name]] *)
Fixpoint getitem (data : DataFrame) (name : string) : result Series :=
  match data with
  | [] => Raise KeyError
  | (n, s) :: rest => if String.eqb n name then Ok s else getitem rest name
  end.

(** [data[name] = s]: the column is replaced where it stands, a new name is
    appended. *)
Fixpoint setitem (data : DataFrame) (name : string) (s : Series) : DataFrame :=
  match data with
  | [] => [(name, s)]
  | (n, s0) :: rest =>
      if String.eqb n name then (n, s) :: rest
      else (n, s0) :: setitem rest name s
  end.

(** [data[name] = pd.to_datetime(data[name])] *)
Definition parse_column (env : storage) (data : DataFrame) (name : string)
    : result DataFrame :=
  result_bind (getitem data name) (fun s =>
  result_bind (pd_to_datetime env s) (fun s' =>
  Ok (setitem data name s'))).

(** [read_data(file_name, drop_na)] *)
Definition read_data (env : storage) (file_name : string) (drop_na : bool)
    : IO DataFrame :=
  fun log =>
    match read_csv env (INPUT_DIR ++ file_name)%string log with
    | (Raise e, log') => (Raise e, log')
    | (Ok data, log') =>
        let data := if drop_na then dropna data else data in
        (result_bind (parse_column env data "date_posted") (fun data =>
         parse_column env data "datefullyfunded"),
         log')
    end.

(** ** What a run has placed *)

(** The cell of an axes, as the library decodes its position. *)
Definition cell_of (ax : axes) : Z * Z :=
  Layout.subplot_cell (ax_ncols ax) (ax_num ax).

(** The plots of a figure, each with the axes it is drawn on. *)
Definition plots_of (fg : figure) : list (axes * artist) :=
  flat_map (fun ax => map (pair ax) (ax_artists ax)) (fig_axes fg).

(** The figures of [w'] that [w] did not have yet, and their plots: what a
    run from [w] to [w'] has assigned. *)
Definition new_figs (w w' : world) : list figure :=
  firstn (length (figs w') - length (figs w)) (figs w').

Definition assigned (w w' : world) : list (axes * artist) :=
  flat_map plots_of (new_figs w w').

(** The state after one draw of the random generator. *)
Definition advance (w : world) : world :=
  mkWorld (strict_sizes w) (figs w) (draws w) (S (drawn w)).

(** A plot sits where the layout puts its variable: on an axes of the
    [rows] by [cols] grid, at the position of the variable's index, which the
    library has accepted, and in a colour of the palette. *)
Definition good_plot (rows cols : Z) (p : axes * artist) : Prop :=
  ax_nrows (fst p) = rows /\
  ax_ncols (fst p) = cols /\
  ax_num (fst p) = Layout.subplot_num (art_var (snd p)) /\
  0 <= art_var (snd p) /\
  position_ok rows cols (ax_num (fst p)) = true /\
  In (art_color (snd p)) COLORS.

(** The invariant of the loop of [hist_panel]: the function's figure is the
    newest, above the figures [older], and all its plots are well placed. *)
Definition panel_inv (rows cols : Z) (older : list figure) (w : world) : Prop :=
  exists fg, figs w = fg :: older /\ Forall (good_plot rows cols) (plots_of fg).

(** The function's figure holds a plot of the variable with index [i]. *)
Definition has_plot (i : Z) (older : list figure) (w : world) : Prop :=
  exists fg p, figs w = fg :: older /\ In p (plots_of fg) /\ art_var (snd p) = i.

(** The grid position an axes was created at. *)
Definition grid (ax : axes) : Z * Z * Z :=
  (ax_nrows ax, ax_ncols ax, ax_num ax).

(** The invariant of the loop of [box_plot]: the function's figure is the
    newest, its axes are those of the [rows] by [cols] grid in row-major
    order, and all its plots are well placed. *)
Definition box_inv (rows cols : Z) (older : list figure) (w : world) : Prop :=
  exists fg,
    figs w = fg :: older /\
    map grid (fig_axes fg) = map (fun k => (rows, cols, k + 1)) (range (rows * cols)) /\
    Forall (good_plot rows cols) (plots_of fg).

(** Two states of two runs of a panel function that go alike: the library
    treats sizes the same way, the generator has the same draws in store,
    and the figure under construction is the same, above the earlier
    figures [o1] of the one run and [o2] of the other. *)
Definition alike (o1 o2 : list figure) (w1 w2 : world) : Prop :=
  strict_sizes w1 = strict_sizes w2 /\
  (forall j, draws w1 (drawn w1 + j) = draws w2 (drawn w2 + j)) /\
  exists fg, figs w1 = fg :: o1 /\ figs w2 = fg :: o2.

(** The account of the draws in a run of [hist_panel] started in [w0]: the
    figure under construction is the newest, and the generator has given
    one draw for each plot of the figure, and at most [slack] more. *)
Definition draws_inv (slack : nat) (w0 w : world) : Prop :=
  strict_sizes w = strict_sizes w0 /\
  draws w = draws w0 /\
  exists fg,
    figs w = fg :: figs w0 /\
    (drawn w0 + length (plots_of fg) <= drawn w
     <= drawn w0 + length (plots_of fg) + slack)%nat.

(** A frame of four columns whose second column holds text, for concrete
    runs of [hist_panel] that fail inside [hist_plot]. *)
Definition text_frame : DataFrame :=
  [ ("price"%string, [Int 3; Int 8; Int 5]);
    ("grade"%string, [Str "a"; Str "b"; Str "a"]);
    ("students"%string, [Int 30; Int 25; Int 12]);
    ("empty"%string, [NA; NA; NA]) ].

(** A generator for concrete runs. *)
Definition sample_draws (k : nat) : nat := (7 * k + 3)%nat.

(** A storage for concrete runs: one file of three projects, the second
    without a posting date, and the days since the epoch of its dates. *)
Definition sample_frame : DataFrame :=
  [ ("projectid"%string, [Str "p1"; Str "p2"; Str "p3"]);
    ("date_posted"%string, [Str "2013-01-01"; NA; Str "2013-03-05"]);
    ("datefullyfunded"%string,
     [Str "2013-02-01"; Str "2013-02-02"; Str "2013-04-01"]);
    ("students_reached"%string, [Int 30; Int 25; Int 12]) ].

Definition sample_dates : list (string * Z) :=
  [ ("2013-01-01"%string, 15706); ("2013-02-01"%string, 15737);
    ("2013-02-02"%string, 15738); ("2013-03-05"%string, 15769);
    ("2013-04-01"%string, 15796) ].

(** The answers of [pd.to_datetime] in the storage for concrete runs.  They
    are fixed for the cells the date columns of the sample files hold: a
    missing value and the string [NaT] give a missing timestamp, a listed
    date its day; the stand-in refuses every other cell. *)
Definition sample_to_datetime1 (c : cell) : result cell :=
  match c with
  | NA => Ok NA
  | Str s =>
      if String.eqb s "NaT" then Ok NA
      else match find (fun d => String.eqb (fst d) s) sample_dates with
           | Some d => Ok (Datetime (snd d))
           | None => Raise ValueError
           end
  | Int _ | Datetime _ => Raise ValueError
  end.

Fixpoint sample_to_datetime (s : Series) : result Series :=
  match s with
  | [] => Ok []
  | c :: rest =>
      result_bind (sample_to_datetime1 c) (fun c' =>
      result_bind (sample_to_datetime rest) (fun rest' =>
      Ok (c' :: rest')))
  end.

Definition sample_storage : storage :=
  mkStorage
    (fun path =>
       if String.eqb path "../data/projects.csv" then Ok sample_frame
       else Raise FileNotFoundError)
    sample_to_datetime.

(** ** The figures the panel functions leave

    The colour of the [j]-th draw after the state [w], and the axes that
    [hist_panel] adds for the variable with index [k]: position [k + 1], one
    histogram, in the colour of the [k]-th draw. *)
Definition palette_pick (w : world) (j : nat) : color :=
  nth (Nat.modulo (draws w (drawn w + j)) (length COLORS)) COLORS (0, 0, 0).

Definition hist_axes (rows cols : Z) (cut : bool) (w : world) (k : nat) : axes :=
  mkAxes rows cols (Z.of_nat k + 1)
    [mkArtist (Histogram cut) (Z.of_nat k) (palette_pick w k)].

(** The axes at index [k] of the grid of [box_plot] once the first [m]
    variables are drawn: position [k + 1], and one box plot of variable [k]
    when [k < m]. *)
Definition box_axes (rows cols : Z) (w : world) (m k : nat) : axes :=
  mkAxes rows cols (Z.of_nat k + 1)
    (if (k <? m)%nat then [mkArtist BoxPlot (Z.of_nat k) (palette_pick w k)]
     else []).

(** A second storage for concrete runs: a file without the column
    [date_posted], a file whose posting dates are no timestamps, and a file
    without missing values. *)
Definition sample_storage_errors : storage :=
  mkStorage
    (fun path =>
       if String.eqb path "../data/nodates.csv" then
         Ok [ ("projectid"%string, [Str "p1"]);
              ("datefullyfunded"%string, [Str "2013-02-01"]) ]
       else if String.eqb path "../data/baddates.csv" then
         Ok [ ("date_posted"%string, [Str "soon"; Str "2013-01-01"]);
              ("datefullyfunded"%string, [Str "2013-02-01"; Str "2013-02-02"]) ]
       else if String.eqb path "../data/clean.csv" then
         Ok [ ("date_posted"%string, [Str "2013-01-01"; Str "2013-03-05"]);
              ("datefullyfunded"%string, [Str "2013-02-01"; Str "2013-04-01"]);
              ("students_reached"%string, [Int 30; Int 12]) ]
       else Raise FileNotFoundError)
    sample_to_datetime.

(** A frame is rectangular and without a missing value. *)
Definition clean_frame (data : DataFrame) : Prop :=
  Forall (fun col => length (snd col) = shape0 data /\
                     Forall (fun c => c <> NA) (snd col)) data.

(** ** The mask of [corr_triangle]

    [mask = np.zeros_like(corr, dtype=np.bool)] and
    [mask[np.triu_indices_from(mask)] = True], for the correlation matrix of
    [n] variables ([np.bool] being the builtin [bool]): a matrix of [False],
    in which the entries at the indices of the upper triangle, the diagonal
    included, are then set.  The heat map leaves out the cells whose mask is
    set. *)
Definition zeros_like (n : nat) : list (list bool) :=
  repeat (repeat false n) n.

(** [np.triu_indices_from]: the pairs [(i, j)] with [i <= j], row by row. *)
Definition triu_indices (n : nat) : list (nat * nat) :=
  flat_map (fun i => map (pair i) (seq i (n - i))) (seq 0 n).

(** [mask[i, j] = True] *)
Definition set_true (mask : list (list bool)) (ij : nat * nat) : list (list bool) :=
  update_nth (fst ij) (update_nth (snd ij) (fun _ => true)) mask.

Definition triangle_mask (n : nat) : list (list bool) :=
  fold_left set_true (triu_indices n) (zeros_like n).

Definition mask_at (mask : list (list bool)) (i j : nat) : bool :=
  nth j (nth i mask []) false.

(** The cells the heat map shows. *)
Definition shown_cells (n : nat) : list (nat * nat) :=
  filter (fun ij => negb (mask_at (triangle_mask n) (fst ij) (snd ij)))
         (list_prod (seq 0 n) (seq 0 n)).

(** * Properties *)

(** ** Integer arithmetic of the layout *)

(** Case analysis on the integer comparisons of the goal; the cases that
    linear arithmetic decides are closed. *)
Ltac compare_cases :=
  repeat match goal with
         | |- context [?a <? ?b] => destruct (Z.ltb_spec a b)
         | |- context [?a <=? ?b] => destruct (Z.leb_spec a b)
         end;
  simpl; try reflexivity; try discriminate; try lia.

Lemma floordiv_nonzero (a b : Z) : b <> 0 -> floordiv a b = Ok (a / b).
Proof.
  intros Hb. unfold floordiv.
  destruct (Z.eqb_spec b 0) as [E | _]; [contradiction | reflexivity].
Qed.

Lemma pymod_nonzero (a b : Z) : b <> 0 -> pymod a b = Ok (a mod b).
Proof.
  intros Hb. unfold pymod.
  destruct (Z.eqb_spec b 0) as [E | _]; [contradiction | reflexivity].
Qed.

Lemma floordiv_zero (a : Z) : floordiv a 0 = Raise ZeroDivisionError.
Proof. reflexivity. Qed.

Lemma cell_index_nonzero (cols i : Z) :
  cols <> 0 -> Layout.cell_index cols i = Ok (i / cols, i mod cols).
Proof.
  intros Hc. unfold Layout.cell_index.
  rewrite floordiv_nonzero, pymod_nonzero by assumption. reflexivity.
Qed.

Lemma subplot_cell_num (cols i : Z) :
  Layout.subplot_cell cols (Layout.subplot_num i) = (i / cols, i mod cols).
Proof.
  unfold Layout.subplot_cell, Layout.subplot_num.
  replace (i + 1 - 1) with i by lia. reflexivity.
Qed.

Lemma rows_times_cols_le (n cols : Z) : 0 < cols -> n / cols * cols <= n.
Proof.
  intros Hc. rewrite Z.mul_comm. apply Z.mul_div_le. exact Hc.
Qed.

Lemma row_step (cols i : Z) :
  0 < cols -> 0 <= i ->
  ((i + 1) mod cols = 0 -> (i + 1) / cols = i / cols + 1) /\
  ((i + 1) mod cols <> 0 -> (i + 1) / cols = i / cols).
Proof.
  intros Hc Hi.
  pose proof (Z.div_mod i cols ltac:(lia)) as Di.
  pose proof (Z.mod_pos_bound i cols Hc) as Bi.
  pose proof (Z.div_mod (i + 1) cols ltac:(lia)) as Dj.
  pose proof (Z.mod_pos_bound (i + 1) cols Hc) as Bj.
  split; intros Hm.
  - rewrite Hm in Dj.
    assert (cols * ((i + 1) / cols - i / cols - 1) = i mod cols + 1 - cols) as E by lia.
    assert ((i + 1) / cols - i / cols - 1 = 0) by nia. lia.
  - assert (cols * ((i + 1) / cols - i / cols)
            = i mod cols + 1 - (i + 1) mod cols) as E by lia.
    assert ((i + 1) / cols - i / cols = 0) by nia. lia.
Qed.

Lemma position_ok_iff (rows cols i : Z) :
  0 < cols -> 0 <= i ->
  Layout.in_grid rows cols (i / cols, i mod cols)
  = position_ok rows cols (Layout.subplot_num i).
Proof.
  intros Hc Hi. unfold Layout.in_grid, position_ok, Layout.subplot_num. simpl.
  pose proof (Z.mod_pos_bound i cols Hc) as Bi.
  pose proof (Z.div_pos i cols Hi Hc) as Pi.
  pose proof (Z.div_mod i cols ltac:(lia)) as Di.
  compare_cases; nia.
Qed.

(** ** The state monad and the loop *)

Lemma for_each_inv {A} (I : world -> Prop) (body : A -> M unit) (xs : list A) :
  (forall x w, In x xs -> I w -> I (snd (body x w))) ->
  forall w, I w -> I (snd (for_each xs body w)).
Proof.
  induction xs as [| x rest IH]; intros Hbody w Hw; simpl.
  - exact Hw.
  - unfold bind.
    pose proof (Hbody x w (or_introl eq_refl) Hw) as Hx.
    destruct (body x w) as [[[] | e] w1]; simpl in *.
    + apply IH; [| exact Hx].
      intros y w2 Hy. apply Hbody. right. exact Hy.
    + exact Hx.
Qed.

(** A loop whose body can only raise [E], and must raise at some element
    whenever the invariant holds, raises [E]. *)
Lemma for_each_raises {A} (I : world -> Prop) (E : exn) (body : A -> M unit)
    (xs : list A) :
  (forall x w, In x xs -> I w -> I (snd (body x w))) ->
  (forall x w e, In x xs -> I w -> fst (body x w) = Raise e -> e = E) ->
  (exists x, In x xs /\ forall w, I w -> fst (body x w) <> Ok tt) ->
  forall w, I w -> fst (for_each xs body w) = Raise E.
Proof.
  induction xs as [| x rest IH]; intros Hinv Herr [y [Hy Hfail]] w Hw.
  - destruct Hy.
  - simpl. unfold bind.
    pose proof (Hinv x w (or_introl eq_refl) Hw) as Hx.
    pose proof (Herr x w) as He.
    destruct (body x w) as [[[] | e] w1] eqn:Eb; simpl in *.
    + apply IH; try assumption.
      * intros z w2 Hz. apply Hinv. right. exact Hz.
      * intros z w2 e Hz. apply Herr. right. exact Hz.
      * destruct Hy as [-> | Hy].
        -- exfalso. apply (Hfail w Hw). rewrite Eb. reflexivity.
        -- exists y. split; assumption.
    + f_equal. apply (He e); auto.
Qed.

Lemma update_nth_app_last {A} (f : A -> A) (l : list A) (x : A) :
  update_nth (length l) f (l ++ [x]) = l ++ [f x].
Proof.
  induction l as [| y l IH]; simpl; [reflexivity | now rewrite IH].
Qed.

Lemma random_choice_spec {A} (pal : list A) (w : world) (d : A) :
  pal <> [] ->
  random_choice pal w
  = (Ok (nth (Nat.modulo (draws w (drawn w)) (length pal)) pal d), advance w).
Proof.
  intros Hne. destruct pal as [| c pal]; [contradiction |].
  unfold random_choice, advance. f_equal. f_equal.
  apply nth_indep. apply Nat.mod_upper_bound. discriminate.
Qed.

Lemma COLORS_nonempty : COLORS <> [].
Proof. discriminate. Qed.

Lemma random_choice_COLORS (w : world) :
  exists col, In col COLORS /\ random_choice COLORS w = (Ok col, advance w).
Proof.
  exists (nth (Nat.modulo (draws w (drawn w)) (length COLORS)) COLORS (0, 0, 0)).
  split.
  - apply nth_In. apply Nat.mod_upper_bound. discriminate.
  - apply random_choice_spec. exact COLORS_nonempty.
Qed.

(** ** The loop of [hist_panel] *)

(** What one iteration of the loop of [hist_panel] does once its position
    is accepted: the axes is added; the column is fetched; a colour is
    drawn; the histogram is drawn, unless the column cannot be drawn, which
    ends the iteration after the colour was drawn. *)
Lemma hist_panel_body_run rows cols cut data i w fg older :
  position_ok rows cols (Layout.subplot_num i) = true ->
  figs w = fg :: older ->
  hist_panel_body rows cols cut data i w
  = match iloc data i with
    | Raise e =>
        (Raise e,
         mkWorld (strict_sizes w)
           (set_axes fg
              (fig_axes fg ++ [mkAxes rows cols (Layout.subplot_num i) []])
            :: older)
           (draws w) (drawn w))
    | Ok ds =>
        match histogram_outcome ds with
        | Raise e =>
            (Raise e,
             mkWorld (strict_sizes w)
               (set_axes fg
                  (fig_axes fg ++ [mkAxes rows cols (Layout.subplot_num i) []])
                :: older)
               (draws w) (S (drawn w)))
        | Ok _ =>
            (Ok tt,
             mkWorld (strict_sizes w)
               (set_axes fg
                  (fig_axes fg ++
                   [mkAxes rows cols (Layout.subplot_num i)
                      [mkArtist (Histogram cut) i (palette_pick w 0)]])
                :: older)
               (draws w) (S (drawn w)))
        end
    end.
Proof.
  intros Hok Hfigs.
  unfold hist_panel_body, bind, add_subplot, lift. rewrite Hok, Hfigs.
  destruct (iloc data i) as [ds | e]; [| reflexivity].
  rewrite (random_choice_spec COLORS _ (0, 0, 0) COLORS_nonempty).
  unfold hist_plot, bind, lift.
  destruct (histogram_outcome ds) as [[] | e]; [| reflexivity].
  unfold draw, modify_fig, advance, set_figs, set_axes, palette_pick.
  cbn [figs fig_axes strict_sizes draws drawn fig_size fig_suptitle fig_despined].
  rewrite update_nth_app_last, Nat.add_0_r. reflexivity.
Qed.

Lemma palette_pick_in (w : world) (j : nat) : In (palette_pick w j) COLORS.
Proof.
  unfold palette_pick. apply nth_In. apply Nat.mod_upper_bound. discriminate.
Qed.

Lemma hist_panel_body_placed rows cols cut data i ds w fg older :
  position_ok rows cols (Layout.subplot_num i) = true ->
  figs w = fg :: older ->
  iloc data i = Ok ds -> histogram_outcome ds = Ok tt ->
  exists col, In col COLORS /\
    hist_panel_body rows cols cut data i w
    = (Ok tt,
       mkWorld (strict_sizes w)
         (set_axes fg
            (fig_axes fg ++
             [mkAxes rows cols (Layout.subplot_num i)
                [mkArtist (Histogram cut) i col]]) :: older)
         (draws w) (S (drawn w))).
Proof.
  intros Hok Hfigs Hds Hout.
  exists (palette_pick w 0). split; [apply palette_pick_in |].
  rewrite (hist_panel_body_run rows cols cut data i w fg older Hok Hfigs).
  rewrite Hds, Hout. reflexivity.
Qed.

Lemma hist_panel_body_refused rows cols cut data i w :
  position_ok rows cols (Layout.subplot_num i) = false ->
  hist_panel_body rows cols cut data i w = (Raise ValueError, w).
Proof.
  intros Hok. unfold hist_panel_body, bind, add_subplot. rewrite Hok. reflexivity.
Qed.

Lemma plots_of_snoc fg ax :
  plots_of (set_axes fg (fig_axes fg ++ [ax]))
  = plots_of fg ++ map (pair ax) (ax_artists ax).
Proof.
  unfold plots_of, set_axes. simpl.
  rewrite flat_map_app. simpl. rewrite app_nil_r. reflexivity.
Qed.

Lemma hist_panel_body_inv rows cols cut data older i w :
  0 <= i ->
  panel_inv rows cols older w ->
  panel_inv rows cols older (snd (hist_panel_body rows cols cut data i w)).
Proof.
  intros Hi [fg [Hf Hgood]].
  destruct (position_ok rows cols (Layout.subplot_num i)) eqn:Hok.
  - rewrite (hist_panel_body_run rows cols cut data i w fg older Hok Hf).
    assert (forall arts,
               Forall (good_plot rows cols)
                 (map (pair (mkAxes rows cols (Layout.subplot_num i) arts)) arts) ->
               Forall (good_plot rows cols)
                 (plots_of
                    (set_axes fg
                       (fig_axes fg ++
                        [mkAxes rows cols (Layout.subplot_num i) arts]))))
      as Hnew.
    { intros arts Harts. rewrite plots_of_snoc. apply Forall_app.
      split; [exact Hgood | exact Harts]. }
    destruct (iloc data i) as [ds | e]; simpl.
    + destruct (histogram_outcome ds) as [[] | e]; simpl;
        (eexists; split; [reflexivity |]); apply Hnew.
      * constructor; [| constructor].
        unfold good_plot. simpl. repeat split; auto. apply palette_pick_in.
      * constructor.
    + eexists. split; [reflexivity |]. apply Hnew. constructor.
  - rewrite hist_panel_body_refused by exact Hok. simpl.
    exists fg. split; assumption.
Qed.

Lemma range_bounds (n i : Z) : In i (range n) <-> 0 <= i < n.
Proof.
  unfold range. rewrite in_map_iff. split.
  - intros [k [<- Hk]]. apply in_seq in Hk. lia.
  - intros Hi. exists (Z.to_nat i). split; [lia |]. apply in_seq. lia.
Qed.

Lemma assigned_none (w w' : world) : figs w' = figs w -> assigned w w' = [].
Proof.
  intros E. unfold assigned, new_figs. rewrite E, Nat.sub_diag. reflexivity.
Qed.

Lemma assigned_one (w w' : world) (fg : figure) :
  figs w' = fg :: figs w -> assigned w w' = plots_of fg.
Proof.
  intros E. unfold assigned, new_figs. rewrite E. simpl length.
  replace (S (length (figs w)) - length (figs w))%nat with 1%nat by lia.
  simpl. apply app_nil_r.
Qed.

Lemma plt_subplots_single (size : Z * Z) (w : world) :
  (fst (plt_subplots 1 1 size w) = Raise ValueError /\
   snd (plt_subplots 1 1 size w) = w) \/
  (fst (plt_subplots 1 1 size w) = Ok AxSingle /\
   snd (plt_subplots 1 1 size w)
   = set_figs w (mkFigure size [mkAxes 1 1 1 []] None false :: figs w)).
Proof.
  unfold plt_subplots.
  destruct (strict_sizes w && negb ((0 <? fst size) && (0 <? snd size))).
  - left. split; reflexivity.
  - right. destruct (strict_sizes w); split; reflexivity.
Qed.

(** Every run of [hist_panel] either creates no figure or creates one, all of
    whose plots are well placed. *)
Lemma hist_panel_on_figure cols data title cut w :
  1 <= cols ->
  let w' := snd (hist_panel_on cols data title cut w) in
  figs w' = figs w \/
  exists fg, figs w' = fg :: figs w /\
             Forall (good_plot (shape1 data / cols) cols) (plots_of fg).
Proof.
  intros Hc. unfold hist_panel_on, bind, lift, Layout.fig_rows.
  rewrite floordiv_nonzero by lia.
  set (rows := shape1 data / cols).
  destruct (plt_subplots_single (20, rows * 4) w) as [[Hr Hw] | [Hr Hw]];
    destruct (plt_subplots 1 1 (20, rows * 4) w) as [r w1];
    simpl in Hr, Hw; subst r w1.
  - left. reflexivity.
  - right.
    set (w1 := set_figs w _).
    assert (panel_inv rows cols (figs w) w1) as H1.
    { eexists. split; [reflexivity |]. constructor. }
    pose proof (for_each_inv (panel_inv rows cols (figs w))
                  (hist_panel_body rows cols cut data) (range (shape1 data))) as Hloop.
    specialize (Hloop (fun i w2 Hi => hist_panel_body_inv rows cols cut data (figs w) i w2
                         (proj1 (proj1 (range_bounds _ _) Hi))) w1 H1).
    destruct (for_each (range (shape1 data)) (hist_panel_body rows cols cut data) w1)
      as [[[] | e] w2]; simpl in Hloop |- *.
    + destruct Hloop as [fg [Hf Hgood]].
      unfold suptitle, modify_fig. rewrite Hf. simpl.
      eexists. split; [reflexivity | exact Hgood].
    + exact Hloop.
Qed.

Lemma hist_panel_on_assigned cols data title cut w :
  1 <= cols ->
  Forall (good_plot (shape1 data / cols) cols)
         (assigned w (snd (hist_panel_on cols data title cut w))).
Proof.
  intros Hc.
  destruct (hist_panel_on_figure cols data title cut w Hc) as [E | [fg [E Hgood]]].
  - rewrite (assigned_none _ _ E). constructor.
  - rewrite (assigned_one _ _ _ E). exact Hgood.
Qed.

Lemma good_plot_cell rows cols p :
  0 < cols -> good_plot rows cols p ->
  cell_of (fst p) = (art_var (snd p) / cols, art_var (snd p) mod cols) /\
  0 <= fst (cell_of (fst p)) < rows /\
  0 <= snd (cell_of (fst p)) < cols /\
  art_var (snd p) < rows * cols.
Proof.
  intros Hc (Hr & Hcl & Hnum & Hv & Hok & _).
  unfold cell_of. rewrite Hcl, Hnum, subplot_cell_num. simpl.
  rewrite Hnum in Hok.
  rewrite <- (position_ok_iff rows cols _ Hc Hv) in Hok.
  unfold Layout.in_grid in Hok. simpl in Hok.
  apply andb_prop in Hok as [Hok H4]. apply andb_prop in Hok as [Hok H3].
  apply andb_prop in Hok as [H1 H2].
  apply Z.leb_le in H1, H3. apply Z.ltb_lt in H2, H4.
  repeat split; try assumption.
  pose proof (Z.div_mod (art_var (snd p)) cols ltac:(lia)). nia.
Qed.

Lemma for_each_app {A} (xs ys : list A) (body : A -> M unit) (w : world) :
  for_each (xs ++ ys) body w = (for_each xs body ;;; for_each ys body) w.
Proof.
  revert w. induction xs as [| x xs IH]; intros w; simpl.
  - reflexivity.
  - unfold bind. destruct (body x w) as [[[] | e] w1]; [| reflexivity].
    rewrite IH. reflexivity.
Qed.

Lemma range_split (n i : Z) :
  0 <= i < n -> exists rest, range n = range i ++ i :: rest.
Proof.
  intros Hi. unfold range.
  replace (Z.to_nat n) with (Z.to_nat i + S (Z.to_nat (n - i - 1)))%nat by lia.
  rewrite seq_app, map_app. simpl.
  exists (map Z.of_nat (seq (S (Z.to_nat i)) (Z.to_nat (n - i - 1)))).
  f_equal. f_equal. lia.
Qed.

Lemma iloc_plottable (data : DataFrame) (i : Z) :
  plottable data -> 0 <= i < shape1 data ->
  exists ds, iloc data i = Ok ds /\ histogram_outcome ds = Ok tt.
Proof.
  intros Hplot Hi. unfold iloc, norm_index.
  destruct (Z.leb_spec 0 i); [| lia].
  destruct (Z.ltb_spec i (shape1 data)); [| lia]. simpl.
  destruct (nth_error data (Z.to_nat i)) as [col |] eqn:Hn.
  - exists (snd col). split; [reflexivity |].
    unfold plottable in Hplot. rewrite Forall_forall in Hplot.
    apply Hplot. eapply nth_error_In. exact Hn.
  - apply nth_error_None in Hn. unfold shape1 in Hi. lia.
Qed.

Lemma hist_loop_ok rows cols cut data older xs w :
  plottable data ->
  Forall (fun i => 0 <= i < shape1 data /\
                   position_ok rows cols (Layout.subplot_num i) = true) xs ->
  panel_inv rows cols older w ->
  fst (for_each xs (hist_panel_body rows cols cut data) w) = Ok tt /\
  panel_inv rows cols older (snd (for_each xs (hist_panel_body rows cols cut data) w)).
Proof.
  intros Hplot Hxs. revert w.
  induction Hxs as [| i xs [Hi Hok] _ IH]; intros w Hw; simpl.
  - split; [reflexivity | exact Hw].
  - unfold bind.
    pose proof (hist_panel_body_inv rows cols cut data older i w ltac:(lia) Hw)
      as Hinv.
    destruct Hw as [fg [Hf _]].
    destruct (iloc_plottable data i Hplot Hi) as [ds [Hds Hout]].
    destruct (hist_panel_body_placed rows cols cut data i ds w fg older
                Hok Hf Hds Hout) as [col [_ Hb]].
    rewrite Hb in Hinv |- *. simpl in Hinv. apply IH. exact Hinv.
Qed.

Lemma hist_panel_body_keeps rows cols cut data older j i w :
  has_plot j older w ->
  has_plot j older (snd (hist_panel_body rows cols cut data i w)).
Proof.
  intros (fg & p & Hf & Hp & Hv).
  destruct (position_ok rows cols (Layout.subplot_num i)) eqn:Hok.
  - rewrite (hist_panel_body_run rows cols cut data i w fg older Hok Hf).
    destruct (iloc data i) as [ds | e];
      [destruct (histogram_outcome ds) as [[] | e] |]; simpl;
      (eexists; exists p; split; [reflexivity |]; split; [| exact Hv];
       rewrite plots_of_snoc; apply in_or_app; left; exact Hp).
  - rewrite hist_panel_body_refused by exact Hok. simpl.
    exists fg, p. repeat split; assumption.
Qed.

(** Every variable whose position lies in the grid is drawn, when the
    columns of the frame can be drawn. *)
Lemma hist_panel_on_places cols data title cut w i :
  1 <= cols ->
  plottable data ->
  0 <= i < shape1 data / cols * cols ->
  exists p, In p (assigned w (snd (hist_panel_on cols data title cut w))) /\
            art_var (snd p) = i.
Proof.
  intros Hc Hplot Hi.
  set (rows := shape1 data / cols) in *.
  assert (0 < rows) as Hrows by nia.
  pose proof (rows_times_cols_le (shape1 data) cols ltac:(lia)) as Hle.
  fold rows in Hle.
  assert (has_plot i (figs w) (snd (hist_panel_on cols data title cut w))) as H.
  { unfold hist_panel_on, bind, lift, Layout.fig_rows.
    rewrite floordiv_nonzero by lia. fold rows.
    assert (plt_subplots 1 1 (20, rows * 4) w
            = (Ok AxSingle,
               set_figs w (mkFigure (20, rows * 4) [mkAxes 1 1 1 []] None false
                           :: figs w))) as ->.
    { unfold plt_subplots. cbn [fst snd].
      destruct (Z.ltb_spec 0 (rows * 4)); [| lia].
      rewrite andb_false_r. reflexivity. }
    set (w1 := set_figs w _).
    assert (panel_inv rows cols (figs w) w1) as H1.
    { eexists. split; [reflexivity |]. constructor. }
    destruct (range_split (shape1 data) i ltac:(lia)) as [rest ->].
    rewrite for_each_app. unfold bind.
    destruct (hist_loop_ok rows cols cut data (figs w) (range i) w1 Hplot)
      as [Hr Hinv]; [| exact H1 |].
    { apply Forall_forall. intros j Hj. apply range_bounds in Hj.
      split; [lia |]. unfold position_ok, Layout.subplot_num. compare_cases. }
    destruct (for_each (range i) (hist_panel_body rows cols cut data) w1) as [r w2].
    simpl in Hr, Hinv. subst r.
    assert (position_ok rows cols (Layout.subplot_num i) = true) as Hok.
    { unfold position_ok, Layout.subplot_num. compare_cases. }
    destruct Hinv as [fg [Hf _]].
    destruct (iloc_plottable data i Hplot ltac:(lia)) as [ds [Hds Hout]].
    destruct (hist_panel_body_placed rows cols cut data i ds w2 fg (figs w)
                Hok Hf Hds Hout) as [col [_ Hb]].
    simpl for_each. unfold bind at 1. rewrite Hb.
    set (w3 := mkWorld _ _ _ _).
    assert (has_plot i (figs w) w3) as H3.
    { eexists. eexists. split; [reflexivity |]. split.
      - rewrite plots_of_snoc. apply in_or_app. right. simpl. left. reflexivity.
      - reflexivity. }
    pose proof (for_each_inv (has_plot i (figs w))
                  (hist_panel_body rows cols cut data) rest
                  (fun j w4 _ =>
                     hist_panel_body_keeps rows cols cut data (figs w) i j w4)
                  w3 H3) as Hloop.
    destruct (for_each rest (hist_panel_body rows cols cut data) w3)
      as [[[] | e] w4]; simpl in Hloop |- *; [| exact Hloop].
    destruct Hloop as (fg4 & p & Hf4 & Hp & Hv).
    unfold suptitle, modify_fig. rewrite Hf4. simpl.
    eexists. exists p. split; [reflexivity |]. split; [exact Hp | exact Hv]. }
  destruct H as (fg & p & Hf & Hp & Hv).
  exists p. split; [| exact Hv].
  rewrite (assigned_one _ _ _ Hf). exact Hp.
Qed.

(** ** The loop of [box_plot] *)

Lemma in_update_nth {A} (h : nat) (f : A -> A) (l : list A) (x : A) :
  In x (update_nth h f l) ->
  In x l \/ exists x0, nth_error l h = Some x0 /\ x = f x0.
Proof.
  revert h. induction l as [| y l IH]; intros h Hx.
  - destruct h; destruct Hx.
  - destruct h as [| h]; simpl in Hx.
    + destruct Hx as [<- | Hx].
      * right. exists y. split; reflexivity.
      * left. right. exact Hx.
    + destruct Hx as [<- | Hx].
      * left. left. reflexivity.
      * destruct (IH h Hx) as [Hl | [x0 [Hn Hf]]].
        -- left. right. exact Hl.
        -- right. exists x0. split; assumption.
Qed.

Lemma map_update_nth {A B} (g : A -> B) (h : nat) (f : A -> A) (l : list A) :
  (forall x, g (f x) = g x) -> map g (update_nth h f l) = map g l.
Proof.
  intros Hg. revert h. induction l as [| y l IH]; intros h.
  - destruct h; reflexivity.
  - destruct h as [| h]; simpl; [now rewrite Hg | now rewrite IH].
Qed.

Lemma nth_error_range (n : Z) (h : nat) (k : Z) :
  nth_error (range n) h = Some k -> k = Z.of_nat h /\ 0 <= k < n.
Proof.
  intros Hn. unfold range in Hn. rewrite nth_error_map in Hn.
  destruct (nth_error (seq 0 (Z.to_nat n)) h) as [j |] eqn:Hj; [| discriminate].
  injection Hn as <-.
  assert (h < length (seq 0 (Z.to_nat n)))%nat as Hlt
    by (apply nth_error_Some; congruence).
  rewrite length_seq in Hlt.
  rewrite (nth_error_nth' _ 0%nat) in Hj by (rewrite length_seq; exact Hlt).
  rewrite seq_nth in Hj by exact Hlt. injection Hj as <-. simpl. lia.
Qed.

Lemma grid_of_nth (rows cols : Z) (axs : list axes) (h : nat) (ax0 : axes) :
  map grid axs = map (fun k => (rows, cols, k + 1)) (range (rows * cols)) ->
  nth_error axs h = Some ax0 ->
  grid ax0 = (rows, cols, Z.of_nat h + 1).
Proof.
  intros Hg Hn.
  apply (map_nth_error grid) in Hn. rewrite Hg, nth_error_map in Hn.
  destruct (nth_error (range (rows * cols)) h) as [k |] eqn:Hk; [| discriminate].
  apply nth_error_range in Hk as [-> _]. simpl in Hn. congruence.
Qed.

Lemma squeeze_two_dim (rows cols a b : Z) :
  squeeze rows cols = Ax2 a b -> a = rows /\ b = cols.
Proof.
  unfold squeeze.
  destruct (rows * cols =? 1); [discriminate |].
  destruct (rows =? 1); [discriminate |].
  destruct (cols =? 1); [discriminate |].
  intros E. injection E as <- <-. split; reflexivity.
Qed.

Lemma getitem2_handle (rows cols i : Z) (arr : axarr) (h : nat) :
  0 < cols -> 0 <= i ->
  arr = squeeze rows cols ->
  getitem2 arr (i / cols) (i mod cols) = Ok h ->
  h = Z.to_nat i /\ i / cols < rows.
Proof.
  intros Hc Hi Harr Hget.
  destruct arr as [| len | a b]; simpl in Hget; try discriminate.
  symmetry in Harr. apply squeeze_two_dim in Harr as [-> ->].
  pose proof (Z.mod_pos_bound i cols Hc) as Bi.
  pose proof (Z.div_pos i cols Hi Hc) as Pi.
  pose proof (Z.div_mod i cols ltac:(lia)) as Di.
  unfold norm_index in Hget.
  destruct (Z.leb_spec 0 (i / cols)); [| lia].
  destruct (Z.ltb_spec (i / cols) rows); simpl in Hget.
  - destruct (Z.leb_spec 0 (i mod cols)); [| lia].
    destruct (Z.ltb_spec (i mod cols) cols); [| lia].
    simpl in Hget. injection Hget as <-. split; [f_equal; lia | assumption].
  - destruct (Z.leb_spec (- rows) (i / cols)); simpl in Hget.
    + destruct (Z.ltb_spec (i / cols) 0); [lia | discriminate].
    + discriminate.
Qed.

Lemma good_plot_grid rows cols ax ax' a :
  grid ax' = grid ax -> good_plot rows cols (ax, a) -> good_plot rows cols (ax', a).
Proof.
  unfold grid, good_plot. simpl. intros E H.
  injection E as -> -> ->. exact H.
Qed.

Lemma in_plots_of fg p :
  In p (plots_of fg) <-> In (fst p) (fig_axes fg) /\ In (snd p) (ax_artists (fst p)).
Proof.
  unfold plots_of. rewrite in_flat_map. split.
  - intros [ax [Hax Hp]]. apply in_map_iff in Hp as [a [<- Ha]]. simpl. auto.
  - intros [Hax Ha]. exists (fst p). split; [exact Hax |].
    apply in_map_iff. exists (snd p). split; [destruct p; reflexivity | exact Ha].
Qed.

Lemma box_plot_body_inv rows cols older arr ic w :
  0 < cols -> 0 <= fst ic ->
  arr = squeeze rows cols ->
  box_inv rows cols older w ->
  box_inv rows cols older (snd (box_plot_body arr cols ic w)).
Proof.
  intros Hc Hi Harr (fg & Hf & Hgrid & Hgood).
  unfold box_plot_body, axes_at, bind, lift.
  rewrite cell_index_nonzero by lia. cbn [fst snd].
  destruct (getitem2 arr (fst ic / cols) (fst ic mod cols)) as [h | e] eqn:Hget.
  2:{ simpl. exists fg. repeat split; assumption. }
  destruct (getitem2_handle rows cols (fst ic) arr h Hc Hi Harr Hget) as [-> Hrow].
  destruct (random_choice_COLORS w) as [col [Hin ->]].
  unfold draw, modify_fig, advance. simpl. rewrite Hf. simpl.
  eexists. split; [reflexivity |]. simpl. split.
  - rewrite map_update_nth by reflexivity. exact Hgrid.
  - apply Forall_forall. intros [ax a] Hp.
    apply in_plots_of in Hp as [Hax Ha]. simpl in Hax, Ha.
    rewrite Forall_forall in Hgood.
    apply in_update_nth in Hax as [Hax | [ax0 [Hn ->]]].
    + apply Hgood. apply in_plots_of. split; assumption.
    + simpl in Ha. apply in_app_or in Ha as [Ha | [<- | []]].
      * apply (good_plot_grid rows cols ax0); [reflexivity |].
        apply Hgood. apply in_plots_of. split; [| exact Ha].
        eapply nth_error_In. exact Hn.
      * pose proof (grid_of_nth rows cols _ _ _ Hgrid Hn) as Hg.
        unfold grid in Hg. injection Hg as Hr Hcl Hnum.
        rewrite Z2Nat.id in Hnum by exact Hi.
        assert (ax_num ax0 = Layout.subplot_num (fst ic)) as Hnum'
          by exact Hnum.
        unfold good_plot. simpl. repeat split; try assumption.
        rewrite Hnum'.
        rewrite <- (position_ok_iff rows cols _ Hc Hi).
        unfold Layout.in_grid. simpl.
        pose proof (Z.mod_pos_bound (fst ic) cols Hc) as Bi.
        pose proof (Z.div_pos (fst ic) cols Hi Hc) as Pi.
        compare_cases.
Qed.

Lemma plt_subplots_cases (nrows ncols : Z) (size : Z * Z) (w : world) :
  plt_subplots nrows ncols size w = (Raise ValueError, w) \/
  plt_subplots nrows ncols size w
  = (Raise ValueError, set_figs w (mkFigure size [] None false :: figs w)) \/
  plt_subplots nrows ncols size w
  = (Ok (squeeze nrows ncols),
     set_figs w
       (mkFigure size
          (map (fun k => mkAxes nrows ncols (k + 1) []) (range (nrows * ncols)))
          None false :: figs w)).
Proof.
  unfold plt_subplots.
  destruct (strict_sizes w && negb ((0 <? fst size) && (0 <? snd size))).
  - left. reflexivity.
  - destruct ((0 <? nrows) && (0 <? ncols)).
    + right. right. reflexivity.
    + right. left. reflexivity.
Qed.

Lemma plots_of_empty_axes (size : Z * Z) (t : option string) (d : bool)
    (nrows ncols : Z) (ks : list Z) :
  plots_of (mkFigure size (map (fun k => mkAxes nrows ncols (k + 1) []) ks) t d) = [].
Proof.
  unfold plots_of. simpl. induction ks as [| k ks IH]; simpl; [reflexivity | exact IH].
Qed.

Lemma enumerate_index {A} (xs : list A) (ix : Z * A) :
  In ix (enumerate xs) -> 0 <= fst ix < Z.of_nat (length xs).
Proof.
  destruct ix as [i x]. unfold enumerate. intros Hin.
  apply in_combine_l in Hin. apply range_bounds in Hin. exact Hin.
Qed.

(** Every run of [box_plot] either creates no figure or creates one, all of
    whose plots are well placed. *)
Lemma box_plot_on_figure cols data w :
  1 <= cols ->
  let w' := snd (box_plot_on cols data w) in
  figs w' = figs w \/
  exists fg, figs w' = fg :: figs w /\
             Forall (good_plot (shape1 data / cols) cols) (plots_of fg).
Proof.
  intros Hc. unfold box_plot_on, bind, lift, Layout.fig_rows.
  rewrite floordiv_nonzero by lia.
  set (rows := shape1 data / cols).
  destruct (plt_subplots_cases rows cols (20, rows * 4) w) as [-> | [-> | ->]].
  - left. reflexivity.
  - right. eexists. split; [reflexivity | constructor].
  - right.
    set (w1 := set_figs w _).
    assert (box_inv rows cols (figs w) w1) as H1.
    { eexists. split; [reflexivity |]. simpl. split.
      - rewrite map_map. reflexivity.
      - rewrite plots_of_empty_axes. constructor. }
    pose proof (for_each_inv (box_inv rows cols (figs w))
                  (box_plot_body (squeeze rows cols) cols)
                  (enumerate (columns data))) as Hloop.
    specialize (Hloop (fun ic w2 Hi =>
                         box_plot_body_inv rows cols (figs w) _ ic w2
                           ltac:(lia) (proj1 (enumerate_index _ _ Hi)) eq_refl)
                      w1 H1).
    destruct (for_each (enumerate (columns data))
                (box_plot_body (squeeze rows cols) cols) w1)
      as [[[] | e] w2]; simpl in Hloop |- *.
    + destruct Hloop as (fg & Hf & _ & Hgood).
      unfold despine, modify_fig. rewrite Hf. simpl.
      eexists. split; [reflexivity | exact Hgood].
    + destruct Hloop as (fg & Hf & _ & Hgood).
      exists fg. split; assumption.
Qed.

Lemma box_plot_on_assigned cols data w :
  1 <= cols ->
  Forall (good_plot (shape1 data / cols) cols)
         (assigned w (snd (box_plot_on cols data w))).
Proof.
  intros Hc.
  destruct (box_plot_on_figure cols data w Hc) as [E | [fg [E Hgood]]].
  - rewrite (assigned_none _ _ E). constructor.
  - rewrite (assigned_one _ _ _ E). exact Hgood.
Qed.

Lemma in_combine_exists {A B} (l : list A) (l' : list B) (a : A) :
  length l = length l' -> In a l -> exists b, In (a, b) (combine l l').
Proof.
  revert l'. induction l as [| x l IH]; intros l' Hlen Hin; [destruct Hin |].
  destruct l' as [| y l']; [discriminate |]. simpl in Hlen.
  destruct Hin as [-> | Hin].
  - exists y. left. reflexivity.
  - destruct (IH l' ltac:(lia) Hin) as [b Hb]. exists b. right. exact Hb.
Qed.

Lemma enumerate_has_index (data : DataFrame) (i : Z) :
  0 <= i < shape1 data -> exists name, In (i, name) (enumerate (columns data)).
Proof.
  intros Hi. unfold enumerate. apply in_combine_exists.
  - unfold range. rewrite length_map, length_seq. lia.
  - apply range_bounds. unfold columns. rewrite length_map.
    unfold shape1 in Hi. exact Hi.
Qed.

Lemma odd_half (n : Z) :
  Z.odd n = true -> n / 2 * 2 = n - 1 /\ (n - 1) / 2 = n / 2 /\ (n - 1) mod 2 = 0.
Proof.
  intros Hodd.
  pose proof (Zmod_odd n) as Hm. rewrite Hodd in Hm.
  pose proof (Z.div_mod n 2 ltac:(lia)) as Dn.
  pose proof (Z.div_mod (n - 1) 2 ltac:(lia)) as Dp.
  pose proof (Z.mod_pos_bound (n - 1) 2 ltac:(lia)) as Bp.
  lia.
Qed.

Lemma getitem2_raises_index (arr : axarr) (r c : Z) (e : exn) :
  arr <> AxSingle -> getitem2 arr r c = Raise e -> e = IndexError.
Proof.
  destruct arr as [| len | a b]; simpl; intros Hne.
  - contradiction.
  - congruence.
  - unfold norm_index.
    destruct ((0 <=? r) && (r <? a));
      [| destruct ((- a <=? r) && (r <? 0))];
      simpl;
      (destruct ((0 <=? c) && (c <? b));
       [| destruct ((- b <=? c) && (c <? 0))]);
      simpl; congruence.
Qed.

Lemma squeeze_two_columns (rows : Z) : squeeze rows 2 <> AxSingle.
Proof.
  unfold squeeze.
  destruct (Z.eqb_spec (rows * 2) 1); [lia |].
  destruct (rows =? 1); [discriminate |]. simpl. discriminate.
Qed.

Lemma box_plot_body_raises rows older arr ic w e :
  arr = squeeze rows 2 ->
  box_inv rows 2 older w ->
  fst (box_plot_body arr 2 ic w) = Raise e -> e = IndexError.
Proof.
  intros Harr (fg & Hf & _ & _).
  unfold box_plot_body, axes_at, bind, lift.
  rewrite cell_index_nonzero by lia. cbn [fst snd].
  destruct (getitem2 arr (fst ic / 2) (fst ic mod 2)) as [h | e'] eqn:Hget.
  - destruct (random_choice_COLORS w) as [col [_ ->]].
    unfold draw, modify_fig, advance. simpl. rewrite Hf. simpl. discriminate.
  - intros E. injection E as <-.
    apply getitem2_raises_index in Hget; [exact Hget |].
    rewrite Harr. apply squeeze_two_columns.
Qed.

Lemma box_plot_body_last rows arr name w n :
  1 <= n -> Z.odd n = true -> rows = n / 2 ->
  arr = squeeze rows 2 ->
  fst (box_plot_body arr 2 (n - 1, name) w) <> Ok tt.
Proof.
  intros Hn Hodd Hrows Harr.
  destruct (odd_half n Hodd) as (_ & Hdiv & _).
  unfold box_plot_body, axes_at, bind, lift.
  rewrite cell_index_nonzero by lia. cbn [fst snd].
  destruct (getitem2 arr ((n - 1) / 2) ((n - 1) mod 2)) as [h | e'] eqn:Hget.
  - exfalso.
    destruct (getitem2_handle rows 2 (n - 1) arr h ltac:(lia) ltac:(lia) Harr Hget)
      as [_ Hlt]. lia.
  - simpl. discriminate.
Qed.

(** With an odd number of at least three columns, [box_plot] stops with an
    [IndexError]. *)
Lemma box_plot_odd_raises (data : DataFrame) (w : world) :
  Z.odd (shape1 data) = true -> 3 <= shape1 data ->
  fst (box_plot data w) = Raise IndexError.
Proof.
  intros Hodd Hn.
  unfold box_plot, box_plot_on, Layout.fig_cols, bind, lift, Layout.fig_rows.
  rewrite floordiv_nonzero by lia.
  set (rows := shape1 data / 2).
  assert (1 <= rows) as Hrows
    by (destruct (odd_half _ Hodd) as (H & _ & _); fold rows in H; lia).
  assert (plt_subplots rows 2 (20, rows * 4) w
          = (Ok (squeeze rows 2),
             set_figs w
               (mkFigure (20, rows * 4)
                  (map (fun k => mkAxes rows 2 (k + 1) []) (range (rows * 2)))
                  None false :: figs w))) as ->.
  { unfold plt_subplots. simpl fst. simpl snd.
    destruct (Z.ltb_spec 0 (rows * 4)); [| lia].
    rewrite andb_false_r.
    destruct (Z.ltb_spec 0 rows); [reflexivity | lia]. }
  set (w1 := set_figs w _).
  assert (box_inv rows 2 (figs w) w1) as H1.
  { eexists. split; [reflexivity |]. simpl. split.
    - rewrite map_map. reflexivity.
    - rewrite plots_of_empty_axes. constructor. }
  destruct (enumerate_has_index data (shape1 data - 1) ltac:(lia)) as [name Hname].
  assert (fst (for_each (enumerate (columns data))
                 (box_plot_body (squeeze rows 2) 2) w1) = Raise IndexError) as Hloop.
  { apply (for_each_raises (box_inv rows 2 (figs w))).
    - intros ic w2 Hic. apply box_plot_body_inv; [lia | | reflexivity].
      apply (enumerate_index _ _ Hic).
    - intros ic w2 e _. apply (box_plot_body_raises rows (figs w)). reflexivity.
    - exists (shape1 data - 1, name). split; [exact Hname |].
      intros w2 _.
      apply (box_plot_body_last rows); [lia | exact Hodd | | ]; reflexivity.
    - exact H1. }
  destruct (for_each (enumerate (columns data))
              (box_plot_body (squeeze rows 2) 2) w1) as [r w2].
  simpl in Hloop. subst r. reflexivity.
Qed.

Lemma shape1_nonneg (data : DataFrame) : 0 <= shape1 data.
Proof. unfold shape1. lia. Qed.

Lemma odd_position_refused (n : Z) :
  Z.odd n = true -> 0 <= n ->
  position_ok (n / 2) 2 (Layout.subplot_num (n - 1)) = false.
Proof.
  intros Hodd Hn. destruct (odd_half n Hodd) as (Hr & _ & _).
  unfold position_ok, Layout.subplot_num. compare_cases.
Qed.

Lemma range_last (n : Z) : 1 <= n -> range n = range (n - 1) ++ [n - 1].
Proof.
  intros Hn. unfold range.
  replace (Z.to_nat n) with (Z.to_nat (n - 1) + 1)%nat by lia.
  rewrite seq_app, map_app. simpl. f_equal. f_equal. lia.
Qed.

(** ** The runs of [hist_panel] in closed form *)

Lemma even_mod2 (n : Z) : (n mod 2 =? 0) = Z.even n.
Proof.
  rewrite Zmod_even. destruct (Z.even n); reflexivity.
Qed.

Lemma figure_created_or_not (w : world) (rows : Z) :
  (strict_sizes w = true /\ rows <= 0) \/ (strict_sizes w = false \/ 0 < rows).
Proof.
  destruct (strict_sizes w); [| right; left; reflexivity].
  destruct (Z_lt_le_dec 0 rows); [right; right; assumption | left; split; [reflexivity | assumption]].
Qed.

Lemma plots_of_hist_axes size rows cols cut w0 t d (ks : list nat) :
  plots_of (mkFigure size (mkAxes 1 1 1 [] :: map (hist_axes rows cols cut w0) ks) t d)
  = map (fun k => (hist_axes rows cols cut w0 k,
                   mkArtist (Histogram cut) (Z.of_nat k) (palette_pick w0 k))) ks.
Proof.
  unfold plots_of. cbn [fig_axes flat_map ax_artists map app].
  induction ks as [| k ks IH]; simpl; [reflexivity | rewrite IH; reflexivity].
Qed.

Lemma numeric_frame_plottable (n : nat) : plottable (numeric_frame n).
Proof.
  unfold plottable, numeric_frame. apply Forall_forall. intros col Hin.
  apply in_map_iff in Hin as [k [<- _]]. reflexivity.
Qed.

(** The loop of [hist_panel] over columns that can be drawn and whose
    positions lie in the grid. *)
Lemma hist_loop_drawn rows cols cut data w0 older m :
  forall a w fg,
    figs w = fg :: older ->
    draws w = draws w0 ->
    drawn w = (drawn w0 + a)%nat ->
    (forall k, In k (seq a m) ->
               (exists ds, iloc data (Z.of_nat k) = Ok ds /\
                           histogram_outcome ds = Ok tt) /\
               position_ok rows cols (Z.of_nat k + 1) = true) ->
    for_each (map Z.of_nat (seq a m)) (hist_panel_body rows cols cut data) w
    = (Ok tt,
       mkWorld (strict_sizes w)
         (set_axes fg (fig_axes fg ++ map (hist_axes rows cols cut w0) (seq a m))
          :: older)
         (draws w) (drawn w + m)).
Proof.
  induction m as [| m IH]; intros a w fg Hf Hd Hn Hok.
  - simpl. unfold ret. f_equal. rewrite app_nil_r, Nat.add_0_r.
    destruct w as [st fs dr dn]. simpl in Hf. subst fs.
    destruct fg. reflexivity.
  - simpl seq. simpl map. simpl for_each. unfold bind at 1.
    destruct (Hok a (or_introl eq_refl)) as [[ds [Hds Hout]] Hpos].
    rewrite (hist_panel_body_run rows cols cut data (Z.of_nat a) w fg older
               Hpos Hf).
    rewrite Hds, Hout.
    set (w1 := mkWorld _ _ _ _).
    rewrite (IH (S a) w1 _ eq_refl).
    + unfold w1. cbn [strict_sizes draws drawn fig_axes set_axes].
      f_equal. f_equal; [| lia].
      f_equal. unfold set_axes. cbn [fig_size fig_suptitle fig_despined].
      f_equal. rewrite <- app_assoc. simpl. f_equal. f_equal.
      unfold hist_axes, Layout.subplot_num, palette_pick.
      rewrite Hd, Hn, Nat.add_0_r. reflexivity.
    + exact Hd.
    + unfold w1. cbn [drawn]. lia.
    + intros k Hk. apply Hok. right. exact Hk.
Qed.

Lemma hist_loop_exact rows cols cut data w0 older m :
  plottable data ->
  forall a w fg,
    figs w = fg :: older ->
    draws w = draws w0 ->
    drawn w = (drawn w0 + a)%nat ->
    (forall k, In k (seq a m) ->
               Z.of_nat k < shape1 data /\
               position_ok rows cols (Z.of_nat k + 1) = true) ->
    for_each (map Z.of_nat (seq a m)) (hist_panel_body rows cols cut data) w
    = (Ok tt,
       mkWorld (strict_sizes w)
         (set_axes fg (fig_axes fg ++ map (hist_axes rows cols cut w0) (seq a m))
          :: older)
         (draws w) (drawn w + m)).
Proof.
  intros Hplot a w fg Hf Hd Hn Hok.
  apply hist_loop_drawn; try assumption.
  intros k Hk. destruct (Hok k Hk) as [Hlt Hpos].
  split; [| exact Hpos].
  apply iloc_plottable; [exact Hplot | lia].
Qed.

(** Where the library refuses a figure without height, the run on a frame
    of fewer columns than a row holds ends before any figure exists. *)
Lemma hist_panel_without_figure cols data title cut w :
  1 <= cols ->
  strict_sizes w = true -> shape1 data / cols <= 0 ->
  hist_panel_on cols data title cut w = (Raise ValueError, w).
Proof.
  intros Hc Hs Hrows. unfold hist_panel_on, bind, lift, Layout.fig_rows.
  rewrite floordiv_nonzero by lia.
  unfold plt_subplots. rewrite Hs. cbn [fst snd].
  destruct (Z.ltb_spec 0 (shape1 data / cols * 4)); [lia |].
  rewrite andb_false_r. reflexivity.
Qed.

Lemma plt_subplots_one (size : Z * Z) (w : world) :
  strict_sizes w = false \/ 0 < snd size ->
  fst size = 20 ->
  plt_subplots 1 1 size w
  = (Ok AxSingle,
     set_figs w (mkFigure size [mkAxes 1 1 1 []] None false :: figs w)).
Proof.
  intros Hcreate Hw. unfold plt_subplots. rewrite Hw.
  destruct (strict_sizes w) eqn:Hs; [| reflexivity].
  destruct Hcreate as [Hf | Hpos]; [discriminate |].
  destruct (Z.ltb_spec 0 (snd size)); [reflexivity | lia].
Qed.

(** The run of [hist_panel] on a frame whose columns can be drawn, once the
    figure is created: the positions of the grid are filled in order, and
    the first position beyond the grid, if there is one, is refused. *)
Lemma hist_panel_with_figure cols data title cut w :
  1 <= cols ->
  plottable data ->
  strict_sizes w = false \/ 0 < shape1 data / cols ->
  let n := shape1 data in
  let rows := n / cols in
  let m := Z.to_nat (rows * cols) in
  hist_panel_on cols data title cut w
  = (if n mod cols =? 0 then Ok tt else Raise ValueError,
     mkWorld (strict_sizes w)
       (mkFigure (20, rows * 4)
          (mkAxes 1 1 1 [] :: map (hist_axes rows cols cut w) (seq 0 m))
          (if n mod cols =? 0 then Some title else None) false
        :: figs w)
       (draws w) (drawn w + m)).
Proof.
  intros Hc Hplot Hcreate n rows m.
  pose proof (shape1_nonneg data) as Hn. fold n in Hn.
  pose proof (Z.div_mod n cols ltac:(lia)) as Dn. fold rows in Dn.
  pose proof (Z.mod_pos_bound n cols ltac:(lia)) as Bn.
  assert (0 <= rows) as Hrows by (apply Z.div_pos; lia).
  assert (Z.of_nat m = rows * cols) as Hm by (unfold m; nia).
  unfold hist_panel_on, bind, lift, Layout.fig_rows.
  rewrite floordiv_nonzero by lia. fold n rows.
  assert (strict_sizes w = false \/ 0 < snd (20, rows * 4)) as Hsize
    by (cbn [snd]; destruct Hcreate as [Hf | Hpos];
        [left; assumption | right; fold n rows in Hpos; lia]).
  rewrite (plt_subplots_one (20, rows * 4) w Hsize eq_refl).
  set (w1 := set_figs w _).
  assert (range n = map Z.of_nat (seq 0 m)
                    ++ map Z.of_nat (seq m (Z.to_nat n - m))) as ->.
  { unfold range. rewrite <- map_app, <- seq_app. f_equal. f_equal. lia. }
  rewrite for_each_app. unfold bind.
  rewrite (hist_loop_exact rows cols cut data w (figs w) m Hplot 0%nat w1 _
             eq_refl eq_refl (eq_sym (Nat.add_0_r _))).
  2:{ intros k Hk. apply in_seq in Hk. fold n.
      split; [nia |]. unfold position_ok. compare_cases; nia. }
  destruct (Z.to_nat n - m)%nat as [| r] eqn:Hrest.
  - assert (n mod cols = 0) as -> by lia.
    simpl. unfold suptitle, modify_fig, ret. simpl. reflexivity.
  - assert (n mod cols <> 0) as Hmod by lia.
    destruct (Z.eqb_spec (n mod cols) 0) as [E | _]; [contradiction |].
    simpl seq. simpl map. simpl for_each. unfold bind.
    rewrite hist_panel_body_refused.
    + reflexivity.
    + unfold position_ok, Layout.subplot_num. compare_cases.
Qed.

(** The run of [hist_panel] on an odd number of columns that can be drawn,
    step by step: the figure is created, the loop draws every variable but
    the last, and the position asked for the last one is refused. *)
Lemma hist_panel_odd_run data title cut w :
  Z.odd (shape1 data) = true ->
  plottable data ->
  strict_sizes w = false \/ 3 <= shape1 data ->
  let n := shape1 data in
  let rows := n / 2 in
  exists w1 w2,
    plt_subplots 1 1 (20, rows * 4) w = (Ok AxSingle, w1) /\
    for_each (range (n - 1)) (hist_panel_body rows 2 cut data) w1 = (Ok tt, w2) /\
    map (fun p => art_var (snd p)) (assigned w w2) = range (n - 1) /\
    drawn w2 = (drawn w + Z.to_nat (n - 1))%nat /\
    add_subplot rows 2 (Layout.subplot_num (n - 1)) w2 = (Raise ValueError, w2) /\
    hist_panel data title cut w = (Raise ValueError, w2).
Proof.
  intros Hodd Hplot Hcreate n rows.
  pose proof (shape1_nonneg data) as Hn. fold n in Hn, Hodd, Hcreate.
  assert (1 <= n) as Hn1
    by (destruct (Z.eq_dec n 0) as [E | ?];
        [rewrite E in Hodd; discriminate | lia]).
  destruct (odd_half n Hodd) as (Hr & _ & _). fold rows in Hr.
  pose proof (odd_position_refused n Hodd Hn) as Hpos. fold rows in Hpos.
  assert (strict_sizes w = false \/ 0 < snd (20, rows * 4)) as Hsize
    by (cbn [snd]; destruct Hcreate as [Hf | Hbig];
        [left; assumption | right; lia]).
  pose proof (plt_subplots_one (20, rows * 4) w Hsize eq_refl) as Hfig.
  set (w1 := set_figs w _) in Hfig.
  set (m := Z.to_nat (n - 1)).
  assert (range (n - 1) = map Z.of_nat (seq 0 m)) as Hrange by reflexivity.
  pose proof (hist_loop_exact rows 2 cut data w (figs w) m Hplot 0%nat w1 _
                eq_refl eq_refl (eq_sym (Nat.add_0_r _))) as Hloop.
  assert (forall k, In k (seq 0 m) ->
                    Z.of_nat k < shape1 data /\
                    position_ok rows 2 (Z.of_nat k + 1) = true) as Hks.
  { intros k Hk. apply in_seq in Hk. fold n.
    split; [lia |]. unfold position_ok. compare_cases. }
  specialize (Hloop Hks). rewrite <- Hrange in Hloop.
  set (w2 := mkWorld _ _ _ _) in Hloop.
  assert (add_subplot rows 2 (Layout.subplot_num (n - 1)) w2
          = (Raise ValueError, w2)) as Hadd
    by (unfold add_subplot; rewrite Hpos; reflexivity).
  exists w1, w2.
  split; [exact Hfig |]. split; [exact Hloop |].
  split; [| split; [reflexivity |]; split; [exact Hadd |]].
  - rewrite (assigned_one w w2 _ eq_refl).
    unfold set_axes. cbn [fig_axes fig_size fig_suptitle fig_despined app].
    rewrite plots_of_hist_axes, map_map. exact (eq_sym Hrange).
  - unfold hist_panel, hist_panel_on, bind, lift, Layout.fig_rows.
    rewrite floordiv_nonzero by lia. fold n rows.
    rewrite Hfig, (range_last n Hn1), for_each_app. unfold bind.
    rewrite Hloop. simpl for_each. unfold bind.
    rewrite hist_panel_body_refused by exact Hpos. reflexivity.
Qed.

(** * The claims *)

(** C1.  For every [variableCount >= 0] and [columnsPerRow >= 1] the
    truncating layout of the histogram panel computes its number of rows as
    the floor quotient [variableCount div columnsPerRow], so that
    [rows * columnsPerRow <= variableCount < (rows + 1) * columnsPerRow],
    and every plot the panel has placed sits on an axes of the [rows] by
    [columnsPerRow] grid whose row index is less than [rows]. *)
Theorem truncating_layout_rows_and_cells (n cols : Z) :
  0 <= n -> 1 <= cols ->
  Layout.fig_rows n cols = Ok (n / cols) /\
  n / cols * cols <= n < (n / cols + 1) * cols /\
  forall data title cut w p,
    shape1 data = n ->
    In p (assigned w (snd (hist_panel_on cols data title cut w))) ->
    ax_nrows (fst p) = n / cols /\
    ax_ncols (fst p) = cols /\
    0 <= fst (cell_of (fst p)) < n / cols.
Proof.
  intros Hn Hc. split; [| split].
  - unfold Layout.fig_rows. apply floordiv_nonzero. lia.
  - pose proof (Z.div_mod n cols ltac:(lia)) as Dn.
    pose proof (Z.mod_pos_bound n cols ltac:(lia)) as Bn. nia.
  - intros data title cut w p <- Hp.
    pose proof (hist_panel_on_assigned cols data title cut w Hc) as Hall.
    rewrite Forall_forall in Hall. specialize (Hall p Hp).
    assert (0 < cols) as Hc0 by lia.
    destruct (good_plot_cell _ _ p Hc0 Hall) as (_ & Hrow & _).
    destruct Hall as (Hr & Hcl & _).
    repeat split; try assumption; apply Hrow.
Qed.

Lemma truncating_layout_rows_and_cells_witness :
  0 <= 5 /\ 1 <= 2 /\
  Layout.fig_rows 5 2 = Ok 2 /\
  2 * 2 <= 5 < (2 + 1) * 2 /\
  let w := init_world false sample_draws in
  let ps := assigned w (snd (hist_panel (numeric_frame 5) "panel" false w)) in
  map (fun p => art_var (snd p)) ps = [0; 1; 2; 3] /\
  forall p, In p ps -> 0 <= fst (cell_of (fst p)) < 2.
Proof.
  assert (0 <= 5) as Hn by lia. assert (1 <= 2) as Hc by lia.
  split; [exact Hn |]. split; [exact Hc |].
  destruct (truncating_layout_rows_and_cells 5 2 Hn Hc)
    as (Hrows & Hle & Hcells).
  split; [exact Hrows |]. split; [exact Hle |].
  split; [reflexivity |].
  intros p Hp.
  apply (Hcells (numeric_frame 5) "panel"%string false
           (init_world false sample_draws) p eq_refl Hp).
Defined.

(** C2.  For every index [i] in [[0, variableCount)] the cell of variable [i]
    is [(i div columnsPerRow, i mod columnsPerRow)]: this is the index pair
    [box_plot] computes, the cell that position [i + 1] of [hist_panel]
    denotes, and the cell at which a run of either function has placed the
    plot of variable [i].  The row does not decrease with the index and
    grows, by one, exactly when the next index is a multiple of
    [columnsPerRow].  With ten variables in two columns there are five rows
    and variable [7] is at [(3, 1)]. *)
Theorem cell_of_index (n cols i : Z) :
  1 <= cols -> 0 <= i < n ->
  Layout.cell_index cols i = Ok (i / cols, i mod cols) /\
  Layout.subplot_cell cols (Layout.subplot_num i) = (i / cols, i mod cols) /\
  0 <= i mod cols < cols /\
  (forall j, i <= j -> i / cols <= j / cols) /\
  ((i + 1) mod cols = 0 -> (i + 1) / cols = i / cols + 1) /\
  ((i + 1) mod cols <> 0 -> (i + 1) / cols = i / cols) /\
  (forall data w p,
      shape1 data = n ->
      In p (assigned w (snd (box_plot_on cols data w))) ->
      art_var (snd p) = i -> cell_of (fst p) = (i / cols, i mod cols)) /\
  (forall data title cut w p,
      shape1 data = n ->
      In p (assigned w (snd (hist_panel_on cols data title cut w))) ->
      art_var (snd p) = i -> cell_of (fst p) = (i / cols, i mod cols)) /\
  Layout.fig_rows 10 2 = Ok 5 /\
  Layout.cell_index 2 7 = Ok (3, 1).
Proof.
  intros Hc Hi.
  assert (0 < cols) as Hc0 by lia.
  destruct (row_step cols i ltac:(lia) ltac:(lia)) as [Hstep Hstay].
  repeat split.
  - apply cell_index_nonzero. lia.
  - apply subplot_cell_num.
  - apply Z.mod_pos_bound. lia.
  - apply Z.mod_pos_bound. lia.
  - intros j Hj. apply Z.div_le_mono; lia.
  - exact Hstep.
  - exact Hstay.
  - intros data w p _ Hp <-.
    pose proof (box_plot_on_assigned cols data w Hc) as Hall.
    rewrite Forall_forall in Hall.
    apply (good_plot_cell _ _ p Hc0 (Hall p Hp)).
  - intros data title cut w p _ Hp <-.
    pose proof (hist_panel_on_assigned cols data title cut w Hc) as Hall.
    rewrite Forall_forall in Hall.
    apply (good_plot_cell _ _ p Hc0 (Hall p Hp)).
Qed.

Lemma cell_of_index_witness :
  1 <= 2 /\ 0 <= 7 < 10 /\
  Layout.cell_index 2 7 = Ok (3, 1) /\
  Layout.subplot_cell 2 (Layout.subplot_num 7) = (3, 1) /\
  let w := init_world true sample_draws in
  map (fun p => (art_var (snd p), cell_of (fst p)))
      (assigned w (snd (box_plot (frame_of_width 10) w)))
  = [ (0, (0, 0)); (1, (0, 1)); (2, (1, 0)); (3, (1, 1)); (4, (2, 0));
      (5, (2, 1)); (6, (3, 0)); (7, (3, 1)); (8, (4, 0)); (9, (4, 1)) ].
Proof.
  assert (1 <= 2) as Hc by lia. assert (0 <= 7 < 10) as Hi by lia.
  split; [exact Hc |]. split; [exact Hi |].
  destruct (cell_of_index 10 2 7 Hc Hi) as (H1 & H2 & _).
  split; [exact H1 |]. split; [exact H2 |]. reflexivity.
Defined.

(** C3.  In the truncating layout of the histogram panel, when
    [variableCount] is not a multiple of [columnsPerRow] the trailing
    variable has no cell inside the [rows] by [columnsPerRow] grid: its cell
    has row index [rows], its position is refused, and no run of the panel
    holds a plot of it; the plots a run holds are those of variables below
    [rows * columnsPerRow], and each of these is placed when the columns of
    the frame can be drawn as histograms.  With eleven variables in two
    columns there are five rows and index [10] has no cell. *)
Theorem truncating_layout_drops_trailing (cols : Z) (data : DataFrame) :
  1 <= cols -> shape1 data mod cols <> 0 ->
  let n := shape1 data in
  let rows := n / cols in
  Layout.fig_rows n cols = Ok rows /\
  Layout.cell_index cols (n - 1) = Ok (rows, (n - 1) mod cols) /\
  Layout.in_grid rows cols (rows, (n - 1) mod cols) = false /\
  position_ok rows cols (Layout.subplot_num (n - 1)) = false /\
  (forall title cut w p,
      In p (assigned w (snd (hist_panel_on cols data title cut w))) ->
      art_var (snd p) < rows * cols /\ art_var (snd p) <> n - 1) /\
  (forall title cut w i,
      plottable data ->
      0 <= i < rows * cols ->
      exists p,
        In p (assigned w (snd (hist_panel_on cols data title cut w))) /\
        art_var (snd p) = i) /\
  Layout.fig_rows 11 2 = Ok 5 /\
  Layout.cell_index 2 10 = Ok (5, 0) /\
  Layout.in_grid 5 2 (5, 0) = false.
Proof.
  intros Hc Hmod n rows.
  assert (0 < cols) as Hc0 by lia.
  pose proof (shape1_nonneg data) as Hn. fold n in Hn, Hmod.
  pose proof (Z.div_mod n cols ltac:(lia)) as Dn.
  pose proof (Z.mod_pos_bound n cols Hc0) as Bn.
  assert ((n - 1) / cols = rows) as Hdiv.
  { symmetry. apply (Z.div_unique (n - 1) cols rows (n mod cols - 1)); [lia |].
    unfold rows. lia. }
  assert (1 <= n) as Hn1 by (destruct (Z.eq_dec n 0) as [E | ?];
                             [rewrite E, Z.mod_0_l in Hmod; lia | lia]).
  assert (Layout.in_grid rows cols (rows, (n - 1) mod cols) = false) as Hgrid.
  { unfold Layout.in_grid. simpl. compare_cases. }
  repeat split.
  - unfold Layout.fig_rows. apply floordiv_nonzero. lia.
  - rewrite cell_index_nonzero by lia. rewrite Hdiv. reflexivity.
  - exact Hgrid.
  - rewrite <- (position_ok_iff rows cols (n - 1) Hc0 ltac:(lia)).
    rewrite Hdiv. exact Hgrid.
  - pose proof (hist_panel_on_assigned cols data title cut w Hc) as Hall.
    rewrite Forall_forall in Hall.
    apply (good_plot_cell _ _ p Hc0 (Hall p H)).
  - pose proof (hist_panel_on_assigned cols data title cut w Hc) as Hall.
    rewrite Forall_forall in Hall.
    destruct (good_plot_cell _ _ p Hc0 (Hall p H)) as (_ & _ & _ & Hlt).
    fold n rows in Hlt. unfold rows in *. nia.
  - intros title cut w i Hplot Hi.
    apply hist_panel_on_places; assumption.
Qed.

Lemma truncating_layout_drops_trailing_witness :
  1 <= 2 /\ shape1 (numeric_frame 11) mod 2 <> 0 /\
  Layout.fig_rows (shape1 (numeric_frame 11)) 2 = Ok 5 /\
  position_ok 5 2 (Layout.subplot_num 10) = false /\
  let w := init_world false sample_draws in
  (exists p,
      In p (assigned w (snd (hist_panel (numeric_frame 11) "panel" false w))) /\
      art_var (snd p) = 9) /\
  map (fun p => art_var (snd p))
      (assigned w (snd (hist_panel (numeric_frame 11) "panel" false w)))
  = [0; 1; 2; 3; 4; 5; 6; 7; 8; 9].
Proof.
  assert (1 <= 2) as Hc by lia.
  assert (shape1 (numeric_frame 11) mod 2 <> 0) as Hmod by (vm_compute; discriminate).
  split; [exact Hc |]. split; [exact Hmod |].
  destruct (truncating_layout_drops_trailing 2 (numeric_frame 11) Hc Hmod)
    as (Hrows & _ & _ & Hpos & _ & Hplaced & _).
  split; [exact Hrows |]. split; [exact Hpos |].
  split; [| reflexivity].
  apply (Hplaced "panel"%string false (init_world false sample_draws) 9
           (numeric_frame_plottable 11)).
  vm_compute. split; [discriminate | reflexivity].
Defined.

(** C10.  For every odd [variableCount >= 1] the loop of [hist_panel] has an
    iteration for the last variable, which asks for the one-based position
    [variableCount] of a grid declared with [rows * 2 = variableCount - 1]
    positions; the library refuses that position in every state.  The
    iteration is reached: on columns that can be drawn, with a library that
    creates the figure (one that accepts a figure without height, or at
    least three columns), the figure is created, the loop draws every
    variable but the last, the request for the last position is made and
    refused, and the run of [hist_panel] ends there with that [ValueError]
    instead of skipping the variable.  (With one column and a library that
    refuses a figure without height the run ends before the loop.) *)
Theorem hist_panel_odd_position_outside_grid (data : DataFrame) :
  Z.odd (shape1 data) = true ->
  let n := shape1 data in
  let rows := n / 2 in
  1 <= n /\
  Layout.fig_rows n 2 = Ok rows /\
  rows * 2 = n - 1 /\
  range n = range (n - 1) ++ [n - 1] /\
  Layout.subplot_num (n - 1) = n /\
  position_ok rows 2 n = false /\
  (forall cut w,
      hist_panel_body rows 2 cut data (n - 1) w = (Raise ValueError, w)) /\
  (forall title cut w,
      plottable data ->
      strict_sizes w = false \/ 3 <= n ->
      exists w1 w2,
        plt_subplots 1 1 (20, rows * 4) w = (Ok AxSingle, w1) /\
        for_each (range (n - 1)) (hist_panel_body rows 2 cut data) w1
        = (Ok tt, w2) /\
        map (fun p => art_var (snd p)) (assigned w w2) = range (n - 1) /\
        drawn w2 = (drawn w + Z.to_nat (n - 1))%nat /\
        add_subplot rows 2 (Layout.subplot_num (n - 1)) w2
        = (Raise ValueError, w2) /\
        hist_panel data title cut w = (Raise ValueError, w2)) /\
  (forall title cut w,
      strict_sizes w = true -> n = 1 ->
      hist_panel data title cut w = (Raise ValueError, w)).
Proof.
  intros Hodd n rows.
  pose proof (shape1_nonneg data) as Hn. fold n in Hn, Hodd.
  assert (1 <= n) as Hn1
    by (destruct (Z.eq_dec n 0) as [E | ?];
        [rewrite E in Hodd; discriminate | lia]).
  destruct (odd_half n Hodd) as (Hr & _ & _).
  pose proof (odd_position_refused n Hodd Hn) as Hpos.
  assert (Layout.subplot_num (n - 1) = n) as Hnum
    by (unfold Layout.subplot_num; lia).
  split; [exact Hn1 |].
  split; [unfold Layout.fig_rows; apply floordiv_nonzero; lia |].
  split; [exact Hr |].
  split; [apply range_last; exact Hn1 |].
  split; [exact Hnum |].
  split; [pose proof Hpos as Hpos'; rewrite Hnum in Hpos'; exact Hpos' |].
  split; [intros cut w; apply hist_panel_body_refused; exact Hpos |].
  split.
  - intros title cut w Hplot Hcreate.
    exact (hist_panel_odd_run data title cut w Hodd Hplot Hcreate).
  - intros title cut w Hs H1.
    apply hist_panel_without_figure; [lia | exact Hs |].
    fold n. rewrite H1. vm_compute. discriminate.
Qed.

Lemma hist_panel_odd_position_outside_grid_witness :
  Z.odd (shape1 (numeric_frame 3)) = true /\
  position_ok 1 2 3 = false /\
  let w := init_world true sample_draws in
  exists w1 w2,
    plt_subplots 1 1 (20, 4) w = (Ok AxSingle, w1) /\
    for_each [0; 1] (hist_panel_body 1 2 true (numeric_frame 3)) w1
    = (Ok tt, w2) /\
    map (fun p => art_var (snd p)) (assigned w w2) = [0; 1] /\
    drawn w2 = 2%nat /\
    add_subplot 1 2 3 w2 = (Raise ValueError, w2) /\
    hist_panel (numeric_frame 3) "panel" true w = (Raise ValueError, w2).
Proof.
  assert (Z.odd (shape1 (numeric_frame 3)) = true) as Hodd by reflexivity.
  split; [exact Hodd |].
  destruct (hist_panel_odd_position_outside_grid (numeric_frame 3) Hodd)
    as (_ & _ & _ & _ & _ & Hpos & _ & Hrun & _).
  split; [exact Hpos |].
  assert (3 <= shape1 (numeric_frame 3)) as Hbig by (vm_compute; discriminate).
  exact (Hrun "panel"%string true (init_world true sample_draws)
           (numeric_frame_plottable 3) (or_intror Hbig)).
Defined.

(** C4, at the input where the code departs from it: with eleven columns
    [box_plot] computes five rows, the floor of [11 / 2] and not its ceiling
    [6]; the index pair of the last variable is [(5, 0)], which the five by
    two array of axes does not have, so the run ends with an [IndexError]
    and holds no plot of variable [10]. *)
Theorem box_plot_eleven_columns (w : world) :
  Layout.fig_rows (shape1 (frame_of_width 11)) Layout.fig_cols = Ok 5 /\
  Layout.cell_index Layout.fig_cols 10 = Ok (5, 0) /\
  getitem2 (squeeze 5 Layout.fig_cols) 5 0 = Raise IndexError /\
  fst (box_plot (frame_of_width 11) w) = Raise IndexError /\
  forall p, In p (assigned w (snd (box_plot (frame_of_width 11) w))) ->
            art_var (snd p) < 10.
Proof.
  split; [reflexivity |]. split; [reflexivity |]. split; [reflexivity |].
  split.
  - apply box_plot_odd_raises; [reflexivity | vm_compute; discriminate].
  - intros p Hp.
    assert (1 <= Layout.fig_cols) as Hc by (unfold Layout.fig_cols; lia).
    pose proof (box_plot_on_assigned Layout.fig_cols (frame_of_width 11) w Hc)
      as Hall.
    rewrite Forall_forall in Hall.
    assert (0 < Layout.fig_cols) as Hc0 by (unfold Layout.fig_cols; lia).
    destruct (good_plot_cell _ _ p Hc0 (Hall p Hp)) as (_ & _ & _ & Hlt).
    exact Hlt.
Qed.

(** The layout arithmetic checks nothing and has no
    error kind of its own: the row count fails exactly when the number of
    columns is zero, with Python's [ZeroDivisionError], and is the floor
    quotient for every other pair of integers, negative ones included; the
    same holds of the index pair of a cell.  The functions evaluate it at
    two columns and the non-negative width of a frame, where it does not
    fail. *)
Lemma layout_arithmetic_failure (n cols : Z) :
  (forall e, Layout.fig_rows n cols = Raise e <-> cols = 0 /\ e = ZeroDivisionError) /\
  (cols <> 0 -> Layout.fig_rows n cols = Ok (n / cols)) /\
  (forall i e,
      Layout.cell_index cols i = Raise e <-> cols = 0 /\ e = ZeroDivisionError) /\
  (forall i, cols <> 0 -> Layout.cell_index cols i = Ok (i / cols, i mod cols)) /\
  (forall data : DataFrame,
      0 <= shape1 data /\
      Layout.fig_rows (shape1 data) Layout.fig_cols = Ok (shape1 data / 2)).
Proof.
  split; [| split; [| split; [| split]]].
  - intros e. unfold Layout.fig_rows, floordiv.
    destruct (Z.eqb_spec cols 0) as [-> | Hc]; split.
    + intros E. injection E as <-. split; reflexivity.
    + intros [_ ->]. reflexivity.
    + discriminate.
    + intros [Hc0 _]. contradiction.
  - intros Hc. unfold Layout.fig_rows. apply floordiv_nonzero. exact Hc.
  - intros i e. destruct (Z.eq_dec cols 0) as [-> | Hc]; split.
    + unfold Layout.cell_index. rewrite floordiv_zero. simpl.
      intros E. injection E as <-. split; reflexivity.
    + intros [_ ->]. reflexivity.
    + rewrite cell_index_nonzero by exact Hc. discriminate.
    + intros [Hc0 _]. contradiction.
  - intros i Hc. apply cell_index_nonzero. exact Hc.
  - intros data. split; [apply shape1_nonneg | reflexivity].
Qed.

(** C5, at the inputs where the code departs from it.  The functions
    evaluate the layout arithmetic at two columns and at the width of a
    frame, so the contract [columnsPerRow >= 1], [variableCount >= 0] holds
    at every call and the arithmetic itself never fails.  The layout fails
    all the same: with an odd number of at least three columns the run of
    [box_plot] ends with an [IndexError] at the last variable in every
    state, and the run of [hist_panel], on columns that can be drawn, with a
    [ValueError]; with five columns, after four plots. *)
Theorem layout_fails_within_contract (data : DataFrame) (w : world) :
  Z.odd (shape1 data) = true -> 3 <= shape1 data ->
  let n := shape1 data in
  (1 <= Layout.fig_cols /\ 0 <= n) /\
  Layout.fig_rows n Layout.fig_cols = Ok (n / 2) /\
  (forall i, Layout.cell_index Layout.fig_cols i = Ok (i / 2, i mod 2)) /\
  fst (box_plot data w) = Raise IndexError /\
  (forall p, In p (assigned w (snd (box_plot data w))) ->
             0 <= art_var (snd p) < n - 1) /\
  (plottable data ->
   forall title cut,
     fst (hist_panel data title cut w) = Raise ValueError /\
     map (fun p => art_var (snd p))
         (assigned w (snd (hist_panel data title cut w)))
     = range (n - 1)).
Proof.
  intros Hodd Hbig n.
  assert (1 <= Layout.fig_cols) as Hc by (unfold Layout.fig_cols; lia).
  assert (0 < Layout.fig_cols) as Hc0 by (unfold Layout.fig_cols; lia).
  destruct (odd_half n Hodd) as (Hr & _ & _).
  split; [split; [exact Hc | apply shape1_nonneg] |].
  split; [reflexivity |].
  split; [intros i; apply cell_index_nonzero; discriminate |].
  split; [apply box_plot_odd_raises; assumption |].
  split.
  - intros p Hp.
    pose proof (box_plot_on_assigned Layout.fig_cols data w Hc) as Hall.
    rewrite Forall_forall in Hall.
    pose proof (Hall p Hp) as Hgood.
    destruct (good_plot_cell _ _ p Hc0 Hgood) as (_ & _ & _ & Hlt).
    destruct Hgood as (_ & _ & _ & Hv & _).
    fold n in Hlt. unfold Layout.fig_cols in Hlt. lia.
  - intros Hplot title cut.
    destruct (hist_panel_odd_run data title cut w Hodd Hplot (or_intror Hbig))
      as (w1 & w2 & _ & _ & Hplaced & _ & _ & Hrun).
    rewrite Hrun. split; [reflexivity | exact Hplaced].
Qed.

Lemma layout_fails_within_contract_witness :
  let data := numeric_frame 5 in
  let w := init_world false sample_draws in
  Z.odd (shape1 data) = true /\ 3 <= shape1 data /\
  (1 <= Layout.fig_cols /\ 0 <= shape1 data) /\
  fst (box_plot data w) = Raise IndexError /\
  map (fun p => art_var (snd p)) (assigned w (snd (box_plot data w)))
  = [0; 1; 2; 3] /\
  fst (hist_panel data "panel" false w) = Raise ValueError.
Proof.
  intros data w.
  assert (Z.odd (shape1 data) = true) as Hodd by reflexivity.
  assert (3 <= shape1 data) as Hbig by (vm_compute; discriminate).
  split; [exact Hodd |]. split; [exact Hbig |].
  destruct (layout_fails_within_contract data w Hodd Hbig)
    as (Hcontract & _ & _ & Hbox & _ & Hhist).
  split; [exact Hcontract |]. split; [exact Hbox |].
  split; [reflexivity |].
  apply (Hhist (numeric_frame_plottable 5) "panel"%string false).
Defined.

(** C6.  Computing the cell of an index is pure: it leaves the state as it
    finds it and gives the same result in any two states, and so does the
    lookup [axes[i // fig_cols, i % fig_cols]] it is part of.  In any two
    runs of [box_plot], whatever the generator draws, a variable that is
    placed in both is placed at the same cell. *)
Theorem cell_index_pure (arr : axarr) (cols i : Z) (w1 w2 : world) :
  lift (Layout.cell_index cols i) w1 = (Layout.cell_index cols i, w1) /\
  lift (Layout.cell_index cols i) w2 = (Layout.cell_index cols i, w2) /\
  snd (axes_at arr cols i w1) = w1 /\
  snd (axes_at arr cols i w2) = w2 /\
  fst (axes_at arr cols i w1) = fst (axes_at arr cols i w2) /\
  (forall data p1 p2,
      1 <= cols ->
      In p1 (assigned w1 (snd (box_plot_on cols data w1))) ->
      In p2 (assigned w2 (snd (box_plot_on cols data w2))) ->
      art_var (snd p1) = art_var (snd p2) ->
      cell_of (fst p1) = cell_of (fst p2)).
Proof.
  assert (forall w, axes_at arr cols i w
                    = (result_bind (Layout.cell_index cols i)
                         (fun rc => getitem2 arr (fst rc) (snd rc)), w)) as Hax.
  { intros w. unfold axes_at, bind, lift.
    destruct (Layout.cell_index cols i); reflexivity. }
  repeat split.
  - rewrite Hax. reflexivity.
  - rewrite Hax. reflexivity.
  - rewrite !Hax. reflexivity.
  - intros data p1 p2 Hc Hp1 Hp2 Hv.
    assert (0 < cols) as Hc0 by lia.
    pose proof (box_plot_on_assigned cols data w1 Hc) as Hall1.
    pose proof (box_plot_on_assigned cols data w2 Hc) as Hall2.
    rewrite Forall_forall in Hall1, Hall2.
    destruct (good_plot_cell _ _ p1 Hc0 (Hall1 p1 Hp1)) as (-> & _).
    destruct (good_plot_cell _ _ p2 Hc0 (Hall2 p2 Hp2)) as (-> & _).
    rewrite Hv. reflexivity.
Qed.



Lemma distinct_NoDup (l : list color) : distinct l = true -> NoDup l.
Proof.
  induction l as [| c rest IH]; simpl; intros H; [constructor |].
  apply andb_prop in H as [Hc Hrest].
  constructor; [| apply IH; exact Hrest].
  intros Hin. apply negb_true_iff in Hc.
  assert (existsb (color_eqb c) rest = true) as E; [| congruence].
  apply existsb_exists. exists c. split; [exact Hin |].
  destruct c as [[r g] b]. simpl. rewrite !Z.eqb_refl. reflexivity.
Qed.

(** C8.  The palette is not empty, and no colour occurs twice in it: it has
    the eight colours of Set2 followed by the twelve of Set3, twenty
    distinct colours. *)
Theorem palette_nonempty_distinct :
  COLORS <> [] /\ NoDup COLORS /\ length COLORS = 20%nat /\
  COLORS = Set2 ++ Set3.
Proof.
  split; [discriminate |]. split; [| split; reflexivity].
  apply distinct_NoDup. reflexivity.
Qed.

(** ** Loading the data *)

Lemma getitem_setitem_same data name s0 s :
  getitem data name = Ok s0 -> getitem (setitem data name s) name = Ok s.
Proof.
  induction data as [| [n c] rest IH]; simpl; [discriminate |].
  destruct (String.eqb n name) eqn:E; simpl; rewrite E.
  - reflexivity.
  - exact IH.
Qed.

Lemma getitem_setitem_other data name other s :
  name <> other -> getitem (setitem data name s) other = getitem data other.
Proof.
  intros Hne. induction data as [| [n c] rest IH]; simpl.
  - destruct (String.eqb_spec name other); [contradiction | reflexivity].
  - destruct (String.eqb_spec n name) as [-> | Hn]; simpl.
    + destruct (String.eqb_spec name other); [contradiction | reflexivity].
    + destruct (String.eqb n other); [reflexivity | exact IH].
Qed.

Lemma columns_setitem data name s0 s :
  getitem data name = Ok s0 -> columns (setitem data name s) = columns data.
Proof.
  unfold columns.
  induction data as [| [n c] rest IH]; simpl; [discriminate |].
  destruct (String.eqb n name); simpl; intros H.
  - reflexivity.
  - rewrite IH by exact H. reflexivity.
Qed.

Lemma columns_dropna data : columns (dropna data) = columns data.
Proof.
  unfold columns, dropna. rewrite map_map. reflexivity.
Qed.

Lemma map_nth_positions {A} (l : list A) (d : A) :
  map (fun j => nth j l d) (seq 0 (length l)) = l.
Proof.
  induction l as [| x l IH]; simpl; [reflexivity |].
  rewrite <- seq_shift, map_map. simpl. rewrite IH. reflexivity.
Qed.

Lemma map_filter_swap {A B} (f : A -> B) (keep : B -> bool) (l : list A) :
  map f (filter (fun x => keep (f x)) l) = filter keep (map f l).
Proof.
  induction l as [| x l IH]; simpl; [reflexivity |].
  destruct (keep (f x)); simpl; rewrite IH; reflexivity.
Qed.

Lemma shape0_dropna data :
  data <> [] ->
  shape0 (dropna data)
  = length (filter (fun k => row_complete (row data k)) (seq 0 (shape0 data))).
Proof.
  destruct data as [| [n s] rest]; [contradiction |]. intros _.
  unfold dropna. simpl shape0 at 1. cbn [map fst snd shape0].
  rewrite length_map. reflexivity.
Qed.

(** [dropna] keeps exactly the rows without a missing value, in order. *)
Lemma rows_dropna data : rows (dropna data) = filter row_complete (rows data).
Proof.
  destruct data as [| col0 rest] eqn:Hd; [reflexivity |].
  rewrite <- Hd.
  assert (data <> []) as Hne by (rewrite Hd; discriminate).
  unfold rows at 1. rewrite (shape0_dropna data Hne).
  set (keep := filter (fun k => row_complete (row data k)) (seq 0 (shape0 data))).
  rewrite (map_ext_in _ (fun j => row data (nth j keep 0%nat))).
  - rewrite <- (map_map (fun j => nth j keep 0%nat) (row data)).
    rewrite map_nth_positions.
    unfold keep, rows. apply map_filter_swap.
  - intros j Hj. apply in_seq in Hj.
    unfold row, dropna. fold keep. rewrite map_map. simpl.
    apply map_ext. intros col.
    rewrite (nth_indep _ NA (nth 0 (snd col) NA))
      by (rewrite length_map; lia).
    rewrite (map_nth (fun k => nth k (snd col) NA) keep 0%nat j).
    reflexivity.
Qed.

Lemma parse_column_spec env data name data' :
  parse_column env data name = Ok data' ->
  exists s s',
    getitem data name = Ok s /\ pd_to_datetime env s = Ok s' /\
    data' = setitem data name s'.
Proof.
  unfold parse_column.
  destruct (getitem data name) as [s |]; simpl; [| discriminate].
  destruct (pd_to_datetime env s) as [s' |] eqn:Es; simpl; [| discriminate].
  intros H. injection H as <-. exists s, s'.
  split; [reflexivity |]. split; [exact Es | reflexivity].
Qed.

(** C9.  [read_data] reads the file once, at [INPUT_DIR + file_name], and an
    exception of the reader is the result.  The rows of the loaded frame
    without a missing value are kept when [drop_na] is set, and all rows
    otherwise.  [pd.to_datetime] is applied to the two columns
    [date_posted] and [datefullyfunded] of the rows kept: a result is a
    frame with the columns of the loaded one, in which these two hold what
    [pd.to_datetime] returned for them and every other column is the loaded
    one, on the rows kept; and there is a result, this one, whenever the two
    columns exist and [pd.to_datetime] accepts them. *)
Theorem read_data_loads_drops_parses (env : storage) (file_name : string)
    (drop_na : bool) (log : list string) :
  let path := (INPUT_DIR ++ file_name)%string in
  let run := read_data env file_name drop_na log in
  snd run = log ++ [path] /\
  (forall e, csv_at env path = Raise e -> fst run = Raise e) /\
  (forall loaded,
      csv_at env path = Ok loaded ->
      let kept := if drop_na then dropna loaded else loaded in
      rows kept = (if drop_na then filter row_complete (rows loaded)
                   else rows loaded) /\
      columns kept = columns loaded /\
      (forall data,
          fst run = Ok data ->
          columns data = columns loaded /\
          (forall name,
              name <> "date_posted"%string ->
              name <> "datefullyfunded"%string ->
              getitem data name = getitem kept name) /\
          (exists s s',
              getitem kept "date_posted" = Ok s /\
              pd_to_datetime env s = Ok s' /\
              getitem data "date_posted" = Ok s') /\
          (exists s s',
              getitem kept "datefullyfunded" = Ok s /\
              pd_to_datetime env s = Ok s' /\
              getitem data "datefullyfunded" = Ok s')) /\
      (forall s1 s2 s1' s2',
          getitem kept "date_posted" = Ok s1 ->
          getitem kept "datefullyfunded" = Ok s2 ->
          pd_to_datetime env s1 = Ok s1' ->
          pd_to_datetime env s2 = Ok s2' ->
          fst run
          = Ok (setitem (setitem kept "date_posted" s1')
                  "datefullyfunded" s2'))).
Proof.
  intros path run.
  assert (String.eqb "date_posted" "datefullyfunded" = false) as Hdistinct
    by reflexivity.
  apply String.eqb_neq in Hdistinct.
  unfold run, read_data, read_csv. fold path.
  split; [destruct (csv_at env path); reflexivity |].
  split; [intros e ->; reflexivity |].
  intros loaded ->.
  set (kept := if drop_na then dropna loaded else loaded).
  split; [unfold kept; destruct drop_na; [apply rows_dropna | reflexivity] |].
  split; [unfold kept; destruct drop_na; [apply columns_dropna | reflexivity] |].
  cbn [fst]. split.
  - intros data Hrun.
    destruct (parse_column env kept "date_posted") as [d1 |] eqn:E1;
      simpl in Hrun; [| discriminate].
    apply parse_column_spec in E1 as (s1 & s1' & Hg1 & Ht1 & ->).
    apply parse_column_spec in Hrun as (s2 & s2' & Hg2 & Ht2 & ->).
    rewrite getitem_setitem_other in Hg2 by exact Hdistinct.
    split; [| split; [| split]].
    + rewrite (columns_setitem _ _ s2)
        by (rewrite getitem_setitem_other by exact Hdistinct; exact Hg2).
      rewrite (columns_setitem _ _ s1) by exact Hg1.
      unfold kept; destruct drop_na; [apply columns_dropna | reflexivity].
    + intros name Hn1 Hn2.
      rewrite getitem_setitem_other by congruence.
      rewrite getitem_setitem_other by congruence. reflexivity.
    + exists s1, s1'. split; [exact Hg1 |]. split; [exact Ht1 |].
      rewrite getitem_setitem_other by congruence.
      apply (getitem_setitem_same _ _ s1). exact Hg1.
    + exists s2, s2'. split; [exact Hg2 |]. split; [exact Ht2 |].
      apply (getitem_setitem_same _ _ s2).
      rewrite getitem_setitem_other by exact Hdistinct. exact Hg2.
  - intros s1 s2 s1' s2' Hg1 Hg2 Ht1 Ht2.
    assert (parse_column env kept "date_posted"
            = Ok (setitem kept "date_posted" s1')) as ->
      by (unfold parse_column; rewrite Hg1; simpl; rewrite Ht1; reflexivity).
    cbn [result_bind]. unfold parse_column.
    rewrite getitem_setitem_other by exact Hdistinct.
    rewrite Hg2. simpl. rewrite Ht2. reflexivity.
Qed.

Example read_data_sample :
  read_data sample_storage "projects.csv" true []
  = (Ok [ ("projectid"%string, [Str "p1"; Str "p3"]);
          ("date_posted"%string, [Datetime 15706; Datetime 15769]);
          ("datefullyfunded"%string, [Datetime 15737; Datetime 15796]);
          ("students_reached"%string, [Int 30; Int 12]) ],
     ["../data/projects.csv"%string]) /\
  read_data sample_storage "projects.csv" false []
  = (Ok [ ("projectid"%string, [Str "p1"; Str "p2"; Str "p3"]);
          ("date_posted"%string, [Datetime 15706; NA; Datetime 15769]);
          ("datefullyfunded"%string,
           [Datetime 15737; Datetime 15738; Datetime 15796]);
          ("students_reached"%string, [Int 30; Int 25; Int 12]) ],
     ["../data/projects.csv"%string]) /\
  read_data sample_storage "absent.csv" true []
  = (Raise FileNotFoundError, ["../data/absent.csv"%string]).
Proof.
  repeat split.
Qed.

(** ** What a run of [box_plot] leaves *)

Lemma for_each_combine {A B} (body : A * B -> M unit) (b0 : B) :
  (forall a b, body (a, b) = body (a, b0)) ->
  forall (l : list A) (l' : list B) (w : world),
    length l = length l' ->
    for_each (combine l l') body w = for_each l (fun a => body (a, b0)) w.
Proof.
  intros Hbody. induction l as [| a l IH]; intros l' w Hlen.
  - reflexivity.
  - destruct l' as [| b l']; [discriminate |]. simpl in Hlen. simpl.
    unfold bind. rewrite Hbody.
    destruct (body (a, b0) w) as [[[] | e] w1]; [| reflexivity].
    apply IH. lia.
Qed.

Lemma for_each_enumerate arr cols (data : DataFrame) (w : world) :
  for_each (enumerate (columns data)) (box_plot_body arr cols) w
  = for_each (range (shape1 data))
      (fun i => box_plot_body arr cols (i, EmptyString)) w.
Proof.
  unfold enumerate, shape1, columns. rewrite length_map.
  apply (for_each_combine (box_plot_body arr cols) EmptyString).
  - reflexivity.
  - unfold range. rewrite !length_map, length_seq. lia.
Qed.

Lemma update_nth_map_seq {A} (f : A -> A) (g g' : nat -> A) (N : nat) :
  forall s h,
    (h < N)%nat ->
    (forall j, j <> (s + h)%nat -> g' j = g j) ->
    g' (s + h)%nat = f (g (s + h)%nat) ->
    update_nth h f (map g (seq s N)) = map g' (seq s N).
Proof.
  induction N as [| N IH]; intros s h Hh Hother Hat; [lia |].
  destruct h as [| h]; simpl.
  - rewrite Nat.add_0_r in Hat. rewrite Hat. f_equal.
    apply map_ext_in. intros j Hj. apply in_seq in Hj.
    symmetry. apply Hother. lia.
  - rewrite (Hother s) by lia. f_equal.
    apply IH; [lia | |].
    + intros j Hj. apply Hother. lia.
    + replace (S s + h)%nat with (s + S h)%nat by lia. exact Hat.
Qed.

Lemma box_plot_body_exact rows k name w fg older :
  Z.of_nat k < rows * 2 ->
  figs w = fg :: older ->
  box_plot_body (Ax2 rows 2) 2 (Z.of_nat k, name) w
  = (Ok tt,
     mkWorld (strict_sizes w)
       (set_axes fg
          (update_nth k
             (add_artist (mkArtist BoxPlot (Z.of_nat k) (palette_pick w 0)))
             (fig_axes fg)) :: older)
       (draws w) (S (drawn w))).
Proof.
  intros Hk Hf.
  pose proof (Z.div_mod (Z.of_nat k) 2 ltac:(lia)) as Dk.
  pose proof (Z.mod_pos_bound (Z.of_nat k) 2 ltac:(lia)) as Bk.
  unfold box_plot_body, axes_at, bind, lift.
  rewrite cell_index_nonzero by lia. cbn [fst snd].
  assert (getitem2 (Ax2 rows 2) (Z.of_nat k / 2) (Z.of_nat k mod 2) = Ok k) as ->.
  { unfold getitem2, norm_index.
    destruct (Z.leb_spec 0 (Z.of_nat k / 2)); [| lia].
    destruct (Z.ltb_spec (Z.of_nat k / 2) rows); [| lia].
    destruct (Z.leb_spec 0 (Z.of_nat k mod 2)); [| lia].
    destruct (Z.ltb_spec (Z.of_nat k mod 2) 2); [| lia].
    simpl. f_equal. lia. }
  rewrite (random_choice_spec COLORS _ (0, 0, 0) COLORS_nonempty).
  unfold draw, modify_fig, advance, set_figs, palette_pick.
  cbn [figs strict_sizes draws drawn]. rewrite Hf, Nat.add_0_r. reflexivity.
Qed.

Lemma box_loop_exact rows w0 older N m :
  Z.of_nat N = rows * 2 ->
  forall a w fg,
    figs w = fg :: older ->
    fig_axes fg = map (box_axes rows 2 w0 a) (seq 0 N) ->
    draws w = draws w0 ->
    drawn w = (drawn w0 + a)%nat ->
    (a + m <= N)%nat ->
    for_each (map Z.of_nat (seq a m))
      (fun i => box_plot_body (Ax2 rows 2) 2 (i, EmptyString)) w
    = (Ok tt,
       mkWorld (strict_sizes w)
         (set_axes fg (map (box_axes rows 2 w0 (a + m)) (seq 0 N)) :: older)
         (draws w) (drawn w + m)).
Proof.
  intros HN. induction m as [| m IH]; intros a w fg Hf Hax Hd Hn Ham.
  - simpl. unfold ret. f_equal. rewrite !Nat.add_0_r, <- Hax.
    destruct w as [st fs dr dn]. simpl in Hf. subst fs.
    destruct fg. reflexivity.
  - simpl seq. simpl map. simpl for_each. unfold bind at 1.
    rewrite (box_plot_body_exact rows a EmptyString w fg older) by (try exact Hf; lia).
    set (w1 := mkWorld _ _ _ _).
    rewrite (IH (S a) w1 _ eq_refl).
    + unfold w1. cbn [strict_sizes draws drawn set_axes fig_size
                        fig_suptitle fig_despined].
      replace (S a + m)%nat with (a + S m)%nat by lia.
      replace (S (drawn w) + m)%nat with (drawn w + S m)%nat by lia.
      reflexivity.
    + cbn [set_axes fig_axes]. rewrite Hax.
      apply update_nth_map_seq; [lia | |].
      * intros j Hj. unfold box_axes. simpl in Hj.
        destruct (Nat.ltb_spec j (S a)), (Nat.ltb_spec j a);
          try reflexivity; lia.
      * simpl. unfold box_axes, add_artist, palette_pick.
        destruct (Nat.ltb_spec a (S a)); [| lia].
        destruct (Nat.ltb_spec a a); [lia |].
        cbn [ax_nrows ax_ncols ax_num ax_artists app].
        rewrite Hd, Hn, Nat.add_0_r. reflexivity.
    + exact Hd.
    + unfold w1. cbn [drawn]. lia.
    + lia.
Qed.

Lemma box_plot_body_outside arr rows i name w :
  arr = squeeze rows 2 -> 0 <= i -> rows * 2 <= i \/ rows = 1 ->
  box_plot_body arr 2 (i, name) w = (Raise IndexError, w).
Proof.
  intros Harr Hi Hout.
  pose proof (Z.div_mod i 2 ltac:(lia)) as Di.
  pose proof (Z.mod_pos_bound i 2 ltac:(lia)) as Bi.
  unfold box_plot_body, axes_at, bind, lift.
  rewrite cell_index_nonzero by lia. cbn [fst snd].
  destruct (getitem2 arr (i / 2) (i mod 2)) as [h | e] eqn:Hget.
  - exfalso.
    destruct (getitem2_handle rows 2 i arr h ltac:(lia) Hi Harr Hget) as [_ Hlt].
    destruct Hout as [Hout | ->]; [lia |].
    rewrite Harr in Hget. vm_compute in Hget. discriminate.
  - apply getitem2_raises_index in Hget as ->; [reflexivity |].
    rewrite Harr. apply squeeze_two_columns.
Qed.

Lemma plt_subplots_grid rows w :
  1 <= rows ->
  plt_subplots rows 2 (20, rows * 4) w
  = (Ok (squeeze rows 2),
     set_figs w
       (mkFigure (20, rows * 4)
          (map (box_axes rows 2 w 0) (seq 0 (Z.to_nat (rows * 2))))
          None false :: figs w)).
Proof.
  intros Hrows. unfold plt_subplots. cbn [fst snd].
  destruct (Z.ltb_spec 0 (rows * 4)); [| lia].
  rewrite andb_false_r.
  destruct (Z.ltb_spec 0 rows); [| lia].
  cbn [andb Z.ltb Z.compare].
  unfold range. rewrite map_map. reflexivity.
Qed.

(** The run of [box_plot] on a frame of at least four columns. *)
Lemma box_plot_with_grid data w :
  4 <= shape1 data ->
  let n := shape1 data in
  let rows := n / 2 in
  let m := Z.to_nat (rows * 2) in
  box_plot data w
  = (if Z.even n then Ok tt else Raise IndexError,
     mkWorld (strict_sizes w)
       (mkFigure (20, rows * 4) (map (box_axes rows 2 w m) (seq 0 m))
          None (Z.even n) :: figs w)
       (draws w) (drawn w + m)).
Proof.
  intros Hn n rows m. fold n in Hn.
  pose proof (Z.div_mod n 2 ltac:(lia)) as Dn. fold rows in Dn.
  pose proof (Z.mod_pos_bound n 2 ltac:(lia)) as Bn.
  assert (2 <= rows) as Hrows by lia.
  assert (Z.of_nat m = rows * 2) as Hm by (unfold m; lia).
  unfold box_plot, box_plot_on, Layout.fig_cols, bind, lift, Layout.fig_rows.
  rewrite floordiv_nonzero by lia. fold n rows.
  rewrite plt_subplots_grid by lia. fold m.
  assert (squeeze rows 2 = Ax2 rows 2) as Harr.
  { unfold squeeze.
    destruct (Z.eqb_spec (rows * 2) 1); [lia |].
    destruct (Z.eqb_spec rows 1); [lia | reflexivity]. }
  rewrite for_each_enumerate. fold n. rewrite Harr.
  assert (range n = map Z.of_nat (seq 0 m)
                    ++ map Z.of_nat (seq m (Z.to_nat n - m))) as ->.
  { unfold range. rewrite <- map_app, <- seq_app. f_equal. f_equal. lia. }
  rewrite for_each_app. unfold bind.
  set (w1 := set_figs w _).
  rewrite (box_loop_exact rows w (figs w) m m Hm 0%nat w1 _ eq_refl eq_refl
             eq_refl (eq_sym (Nat.add_0_r _)) (Nat.le_refl _)).
  rewrite <- even_mod2.
  destruct (Z.to_nat n - m)%nat as [| r] eqn:Hrest.
  - assert (n mod 2 = 0) as -> by lia.
    simpl. unfold despine, modify_fig, ret. simpl. reflexivity.
  - assert (n mod 2 <> 0) as Hmod by lia.
    destruct (Z.eqb_spec (n mod 2) 0) as [E | _]; [contradiction |].
    simpl seq. simpl map. simpl for_each. unfold bind.
    rewrite (box_plot_body_outside (Ax2 rows 2) rows)
      by (try (symmetry; exact Harr); lia).
    reflexivity.
Qed.

(** The run of [box_plot] on a frame of two or three columns: the array of
    axes of a single row has one dimension, and the first lookup fails. *)
Lemma box_plot_one_row data w :
  2 <= shape1 data <= 3 ->
  box_plot data w
  = (Raise IndexError,
     set_figs w
       (mkFigure (20, 4) [mkAxes 1 2 1 []; mkAxes 1 2 2 []] None false :: figs w)).
Proof.
  intros Hn.
  assert (shape1 data / 2 = 1) as Hrows
    by (pose proof (Z.div_mod (shape1 data) 2 ltac:(lia));
        pose proof (Z.mod_pos_bound (shape1 data) 2 ltac:(lia)); lia).
  unfold box_plot, box_plot_on, Layout.fig_cols, bind, lift, Layout.fig_rows.
  rewrite floordiv_nonzero by lia. rewrite Hrows.
  rewrite plt_subplots_grid by lia.
  rewrite for_each_enumerate.
  destruct (range_split (shape1 data) 0 ltac:(lia)) as [rest ->].
  simpl for_each. unfold bind.
  rewrite (box_plot_body_outside (squeeze 1 2) 1) by (try reflexivity; lia).
  reflexivity.
Qed.

(** The run of [box_plot] on a frame of at most one column: the grid has no
    row, and [plt.subplots] refuses it. *)
Lemma box_plot_no_row data w :
  shape1 data <= 1 ->
  box_plot data w
  = (Raise ValueError,
     if strict_sizes w then w
     else set_figs w (mkFigure (20, 0) [] None false :: figs w)).
Proof.
  intros Hn. pose proof (shape1_nonneg data) as Hn0.
  assert (shape1 data / 2 = 0) as Hrows
    by (pose proof (Z.div_mod (shape1 data) 2 ltac:(lia));
        pose proof (Z.mod_pos_bound (shape1 data) 2 ltac:(lia)); lia).
  unfold box_plot, box_plot_on, Layout.fig_cols, bind, lift, Layout.fig_rows.
  rewrite floordiv_nonzero by lia. rewrite Hrows.
  unfold plt_subplots. cbn [fst snd].
  destruct (strict_sizes w) eqn:Hs; reflexivity.
Qed.

(** X6.  With an even number of at least four columns, [box_plot] completes and
    leaves one new figure above the earlier ones: [20] wide and four times
    the number of rows high, despined, whose axes are the positions of the
    grid in order, the axes at position [k + 1] holding one box plot, of
    column [k], in the colour of the [k]-th draw. *)
Theorem box_plot_even_figure (data : DataFrame) (w : world) :
  Z.even (shape1 data) = true -> 4 <= shape1 data ->
  let n := shape1 data in
  box_plot data w
  = (Ok tt,
     mkWorld (strict_sizes w)
       (mkFigure (20, n / 2 * 4)
          (map (fun k => mkAxes (n / 2) 2 (Z.of_nat k + 1)
                           [mkArtist BoxPlot (Z.of_nat k) (palette_pick w k)])
               (seq 0 (Z.to_nat n)))
          None true :: figs w)
       (draws w) (drawn w + Z.to_nat n)).
Proof.
  intros Heven Hn n. subst n.
  pose proof (Z.div_mod (shape1 data) 2 ltac:(lia)) as Dn.
  assert (shape1 data mod 2 = 0) as Hmod
    by (apply Z.eqb_eq; rewrite even_mod2; exact Heven).
  assert (shape1 data / 2 * 2 = shape1 data) as Hfull by lia.
  rewrite (box_plot_with_grid data w Hn). rewrite Heven, Hfull.
  f_equal. f_equal. f_equal. f_equal.
  apply map_ext_in. intros k Hk. apply in_seq in Hk.
  unfold box_axes. destruct (Nat.ltb_spec k (Z.to_nat (shape1 data))); [reflexivity | lia].
Qed.

Lemma box_plot_even_figure_witness :
  Z.even (shape1 (frame_of_width 4)) = true /\
  4 <= shape1 (frame_of_width 4) /\
  let w := init_world true sample_draws in
  let w' := snd (box_plot (frame_of_width 4) w) in
  map fig_despined (figs w') = [true] /\
  map (fun p => (art_var (snd p), ax_num (fst p))) (assigned w w')
  = [(0, 1); (1, 2); (2, 3); (3, 4)] /\
  drawn w' = 4%nat.
Proof.
  assert (Z.even (shape1 (frame_of_width 4)) = true) as Heven by reflexivity.
  assert (4 <= shape1 (frame_of_width 4)) as Hn by (vm_compute; discriminate).
  split; [exact Heven |]. split; [exact Hn |].
  intros w w'. unfold w'.
  rewrite (box_plot_even_figure (frame_of_width 4) w Heven Hn).
  repeat split.
Defined.

(** X7.  On a frame of two or three columns [box_plot] draws nothing: the array
    of axes of a single row has one dimension, the lookup with a row and a
    column raises [IndexError] at the first column, and the figure is left
    with its two empty axes; no colour was drawn. *)
Theorem box_plot_single_row_fails (data : DataFrame) (w : world) :
  2 <= shape1 data <= 3 ->
  box_plot data w
  = (Raise IndexError,
     mkWorld (strict_sizes w)
       (mkFigure (20, 4) [mkAxes 1 2 1 []; mkAxes 1 2 2 []] None false :: figs w)
       (draws w) (drawn w)).
Proof.
  intros Hn. rewrite (box_plot_one_row data w Hn). reflexivity.
Qed.

Lemma box_plot_single_row_fails_witness :
  2 <= shape1 (frame_of_width 2) <= 3 /\
  let w := init_world false sample_draws in
  fst (box_plot (frame_of_width 2) w) = Raise IndexError /\
  assigned w (snd (box_plot (frame_of_width 2) w)) = [] /\
  drawn (snd (box_plot (frame_of_width 2) w)) = 0%nat.
Proof.
  assert (2 <= shape1 (frame_of_width 2) <= 3) as Hn
    by (vm_compute; split; discriminate).
  split; [exact Hn |].
  intros w.
  rewrite (box_plot_single_row_fails (frame_of_width 2) w Hn).
  repeat split.
Defined.

(** X8.  With an odd number of at least five columns, [box_plot] ends with an
    [IndexError] at the last column and leaves the figure it was filling:
    not despined, every axes of the grid holding the box plot of its column,
    the last column without one; no colour was drawn for the last column. *)
Theorem box_plot_odd_figure (data : DataFrame) (w : world) :
  Z.odd (shape1 data) = true -> 5 <= shape1 data ->
  let n := shape1 data in
  box_plot data w
  = (Raise IndexError,
     mkWorld (strict_sizes w)
       (mkFigure (20, n / 2 * 4)
          (map (fun k => mkAxes (n / 2) 2 (Z.of_nat k + 1)
                           [mkArtist BoxPlot (Z.of_nat k) (palette_pick w k)])
               (seq 0 (Z.to_nat (n - 1))))
          None false :: figs w)
       (draws w) (drawn w + Z.to_nat (n - 1))).
Proof.
  intros Hodd Hn n. subst n.
  destruct (odd_half _ Hodd) as (Hr & _ & _).
  assert (Z.even (shape1 data) = false) as Heven
    by (rewrite <- Z.negb_odd, Hodd; reflexivity).
  rewrite (box_plot_with_grid data w ltac:(lia)). rewrite Heven, Hr.
  f_equal. f_equal. f_equal. f_equal.
  apply map_ext_in. intros k Hk. apply in_seq in Hk.
  unfold box_axes.
  destruct (Nat.ltb_spec k (Z.to_nat (shape1 data - 1))); [reflexivity | lia].
Qed.

Lemma box_plot_odd_figure_witness :
  Z.odd (shape1 (frame_of_width 5)) = true /\
  5 <= shape1 (frame_of_width 5) /\
  let w := init_world true sample_draws in
  let w' := snd (box_plot (frame_of_width 5) w) in
  fst (box_plot (frame_of_width 5) w) = Raise IndexError /\
  map fig_despined (figs w') = [false] /\
  map (fun p => art_var (snd p)) (assigned w w') = [0; 1; 2; 3] /\
  drawn w' = 4%nat.
Proof.
  assert (Z.odd (shape1 (frame_of_width 5)) = true) as Hodd by reflexivity.
  assert (5 <= shape1 (frame_of_width 5)) as Hn by (vm_compute; discriminate).
  split; [exact Hodd |]. split; [exact Hn |].
  intros w w'. unfold w'.
  rewrite (box_plot_odd_figure (frame_of_width 5) w Hodd Hn).
  repeat split.
Defined.

Lemma plots_of_box_axes size rows cols w0 m t d (ks : list nat) :
  Forall (fun k => (k < m)%nat) ks ->
  length (plots_of (mkFigure size (map (box_axes rows cols w0 m) ks) t d))
  = length ks.
Proof.
  unfold plots_of. cbn [fig_axes].
  induction 1 as [| k ks Hk _ IH]; [reflexivity |].
  simpl. rewrite length_app, IH. unfold box_axes.
  destruct (Nat.ltb_spec k m); [reflexivity | lia].
Qed.

(** X9.  Whatever its input, [box_plot] leaves the earlier figures as they were,
    creates at most one figure, and takes from the random generator exactly
    one draw for each box plot it has placed. *)
Theorem box_plot_frame (data : DataFrame) (w : world) :
  let w' := snd (box_plot data w) in
  strict_sizes w' = strict_sizes w /\
  draws w' = draws w /\
  (figs w' = figs w \/ exists fg, figs w' = fg :: figs w) /\
  drawn w' = (drawn w + length (assigned w w'))%nat.
Proof.
  destruct (Z_le_gt_dec (shape1 data) 1) as [Hsmall | Hbig].
  - rewrite (box_plot_no_row data w Hsmall).
    destruct (strict_sizes w) eqn:Hs; cbn [snd].
    + rewrite (assigned_none w w eq_refl). simpl.
      repeat split; try assumption; try reflexivity; [left; reflexivity | lia].
    + set (w' := set_figs w _).
      rewrite (assigned_one w w' _ eq_refl). simpl.
      repeat split; try assumption; try reflexivity;
        [right; eexists; reflexivity | lia].
  - destruct (Z_le_gt_dec (shape1 data) 3) as [Hrow | Hgrid].
    + rewrite (box_plot_one_row data w ltac:(lia)). cbn [snd].
      set (w' := set_figs w _).
      rewrite (assigned_one w w' _ eq_refl). simpl.
      repeat split; try reflexivity; [right; eexists; reflexivity | lia].
    + rewrite (box_plot_with_grid data w ltac:(lia)). cbn [snd].
      set (w' := mkWorld _ _ _ _).
      rewrite (assigned_one w w' _ eq_refl).
      rewrite plots_of_box_axes, length_seq
        by (apply Forall_forall; intros k Hk; apply in_seq in Hk; lia).
      repeat split; try reflexivity. right. eexists. reflexivity.
Qed.

(** * Further properties of [read_data] *)

Lemma getitem_in_columns data name :
  (forall s, getitem data name = Ok s -> In name (columns data)) /\
  (forall e, getitem data name = Raise e ->
             e = KeyError /\ ~ In name (columns data)).
Proof.
  unfold columns. induction data as [| [n c] rest [IHok IHerr]]; simpl.
  - split; [discriminate |]. intros e E. injection E as <-. auto.
  - destruct (String.eqb_spec n name) as [-> | Hn]; split.
    + intros _ _. left. reflexivity.
    + discriminate.
    + intros s Hs. right. apply (IHok s Hs).
    + intros e He. destruct (IHerr e He) as [-> Hnot].
      split; [reflexivity |]. intros [E | Hin]; [contradiction | auto].
Qed.

Lemma getitem_missing data name :
  ~ In name (columns data) -> getitem data name = Raise KeyError.
Proof.
  intros Hnot. destruct (getitem data name) as [s | e] eqn:E.
  - exfalso. apply Hnot. apply (proj1 (getitem_in_columns data name) s E).
  - destruct (proj2 (getitem_in_columns data name) e E) as [-> _]. reflexivity.
Qed.

Lemma dropna_clean (data : DataFrame) : clean_frame data -> dropna data = data.
Proof.
  unfold clean_frame, dropna. intros Hclean.
  assert (filter (fun k => row_complete (row data k)) (seq 0 (shape0 data))
          = seq 0 (shape0 data)) as ->.
  { apply forallb_filter_id. apply forallb_forall. intros k Hk. apply in_seq in Hk.
    unfold row_complete, row. apply forallb_forall. intros c Hc.
    apply in_map_iff in Hc as [col [<- Hcol]].
    rewrite Forall_forall in Hclean.
    destruct (Hclean col Hcol) as [Hlen Hcells].
    rewrite Forall_forall in Hcells.
    specialize (Hcells (nth k (snd col) NA) ltac:(apply nth_In; lia)).
    destruct (nth k (snd col) NA); [contradiction | reflexivity ..]. }
  rewrite <- (map_id data) at 2.
  apply map_ext_in. intros col Hcol.
  rewrite Forall_forall in Hclean. destruct (Hclean col Hcol) as [Hlen _].
  rewrite <- Hlen, map_nth_positions. destruct col; reflexivity.
Qed.

(** X14.  On a file whose frame is rectangular and holds no missing value,
    [drop_na] makes no difference to [read_data]. *)
Theorem read_data_drop_na_without_effect (env : storage) (file_name : string)
    (log : list string) (loaded : DataFrame) :
  csv_at env (INPUT_DIR ++ file_name) = Ok loaded ->
  clean_frame loaded ->
  read_data env file_name true log = read_data env file_name false log.
Proof.
  intros Hload Hclean. unfold read_data, read_csv. rewrite Hload.
  rewrite (dropna_clean loaded Hclean). reflexivity.
Qed.

Lemma read_data_drop_na_without_effect_witness :
  (exists loaded,
      csv_at sample_storage_errors (INPUT_DIR ++ "clean.csv") = Ok loaded /\
      clean_frame loaded) /\
  read_data sample_storage_errors "clean.csv" true []
  = read_data sample_storage_errors "clean.csv" false [].
Proof.
  assert (exists loaded,
             csv_at sample_storage_errors (INPUT_DIR ++ "clean.csv") = Ok loaded /\
             clean_frame loaded) as Hex.
  { eexists. split; [reflexivity |].
    repeat constructor; discriminate. }
  split; [exact Hex |].
  destruct Hex as [loaded [Hload Hclean]].
  apply (read_data_drop_na_without_effect sample_storage_errors "clean.csv" []
           loaded Hload Hclean).
Defined.

(** * The mask of [corr_triangle] *)

Lemma length_update_nth {A} (h : nat) (f : A -> A) (l : list A) :
  length (update_nth h f l) = length l.
Proof.
  revert h. induction l as [| x l IH]; intros h; destruct h; simpl; auto.
Qed.

Lemma nth_update_nth_other {A} (h k : nat) (f : A -> A) (l : list A) (d : A) :
  k <> h -> nth k (update_nth h f l) d = nth k l d.
Proof.
  revert h k. induction l as [| x l IH]; intros h k Hk; destruct h, k; simpl;
    try reflexivity; try contradiction.
  apply IH. intros E. apply Hk. f_equal. exact E.
Qed.

Lemma nth_update_nth_same {A} (h : nat) (f : A -> A) (l : list A) (d : A) :
  (h < length l)%nat -> nth h (update_nth h f l) d = f (nth h l d).
Proof.
  revert h. induction l as [| x l IH]; intros h Hh; simpl in Hh; [lia |].
  destruct h; simpl; [reflexivity | apply IH; lia].
Qed.

Lemma mask_at_set_true (mask : list (list bool)) (n a b i j : nat) :
  length mask = n -> Forall (fun r => length r = n) mask ->
  (a < n)%nat -> (b < n)%nat ->
  mask_at (set_true mask (a, b)) i j
  = ((a =? i)%nat && (b =? j)%nat) || mask_at mask i j.
Proof.
  intros Hlen Hrows Ha Hb. unfold mask_at, set_true. cbn [fst snd].
  destruct (Nat.eqb_spec a i) as [<- | Hai].
  - rewrite nth_update_nth_same by lia.
    assert (length (nth a mask []) = n) as Hrow
      by (rewrite Forall_forall in Hrows; apply Hrows; apply nth_In; lia).
    destruct (Nat.eqb_spec b j) as [<- | Hbj].
    + rewrite nth_update_nth_same by lia. reflexivity.
    + rewrite nth_update_nth_other by auto. reflexivity.
  - rewrite nth_update_nth_other by auto. reflexivity.
Qed.

Lemma set_true_shape (mask : list (list bool)) (n : nat) (ij : nat * nat) :
  length mask = n -> Forall (fun r => length r = n) mask ->
  length (set_true mask ij) = n /\
  Forall (fun r => length r = n) (set_true mask ij).
Proof.
  intros Hlen Hrows. unfold set_true. split.
  - rewrite length_update_nth. exact Hlen.
  - apply Forall_forall. intros r Hr.
    rewrite Forall_forall in Hrows.
    apply in_update_nth in Hr as [Hr | [r0 [Hn ->]]].
    + apply Hrows. exact Hr.
    + rewrite length_update_nth. apply Hrows. eapply nth_error_In. exact Hn.
Qed.

Lemma mask_at_fold (n : nat) (idx : list (nat * nat)) :
  forall mask,
    length mask = n -> Forall (fun r => length r = n) mask ->
    Forall (fun ij => (fst ij < n)%nat /\ (snd ij < n)%nat) idx ->
    forall i j,
      mask_at (fold_left set_true idx mask) i j
      = existsb (fun ij => (fst ij =? i)%nat && (snd ij =? j)%nat) idx
        || mask_at mask i j.
Proof.
  induction idx as [| [a b] idx IH]; intros mask Hlen Hrows Hidx i j.
  - reflexivity.
  - apply Forall_cons_iff in Hidx as [[Ha Hb] Hidx]. simpl in Ha, Hb.
    destruct (set_true_shape mask n (a, b) Hlen Hrows) as [Hlen' Hrows'].
    simpl fold_left. rewrite (IH _ Hlen' Hrows' Hidx).
    rewrite (mask_at_set_true mask n a b i j Hlen Hrows Ha Hb).
    simpl. rewrite orb_assoc.
    rewrite (orb_comm (existsb _ idx)). reflexivity.
Qed.

Lemma in_triu_indices (n i j : nat) :
  In (i, j) (triu_indices n) <-> (i <= j)%nat /\ (j < n)%nat.
Proof.
  unfold triu_indices. rewrite in_flat_map. split.
  - intros [a [Ha Hin]]. apply in_seq in Ha.
    apply in_map_iff in Hin as [b [E Hb]]. injection E as <- <-.
    apply in_seq in Hb. lia.
  - intros [Hij Hj]. exists i. split; [apply in_seq; lia |].
    apply in_map_iff. exists j. split; [reflexivity | apply in_seq; lia].
Qed.

Lemma triangle_mask_at (n i j : nat) :
  (i < n)%nat -> (j < n)%nat ->
  mask_at (triangle_mask n) i j = (i <=? j)%nat.
Proof.
  intros Hi Hj. unfold triangle_mask.
  rewrite (mask_at_fold n).
  - assert (mask_at (zeros_like n) i j = false) as ->.
    { unfold mask_at, zeros_like.
      rewrite (nth_indep _ [] (repeat false n)) by (rewrite repeat_length; lia).
      rewrite nth_repeat. apply nth_repeat. }
    rewrite orb_false_r.
    destruct (Nat.leb_spec i j) as [Hle | Hgt].
    + apply existsb_exists. exists (i, j). split.
      * apply in_triu_indices. lia.
      * simpl. rewrite !Nat.eqb_refl. reflexivity.
    + destruct (existsb _ (triu_indices n)) eqn:E; [| reflexivity].
      apply existsb_exists in E as [[a b] [Hin Hab]]. simpl in Hab.
      apply andb_prop in Hab as [Ha Hb].
      apply Nat.eqb_eq in Ha, Hb. subst a b.
      apply in_triu_indices in Hin. lia.
  - apply repeat_length.
  - apply Forall_forall. intros r Hr. apply repeat_spec in Hr. subst r.
    apply repeat_length.
  - apply Forall_forall. intros [a b] Hin. apply in_triu_indices in Hin.
    simpl. lia.
Qed.

Lemma filter_list_prod {A B} (f : A * B -> bool) (l : list A) (l' : list B) :
  filter f (list_prod l l')
  = flat_map (fun a => map (pair a) (filter (fun b => f (a, b)) l')) l.
Proof.
  induction l as [| a l IH]; simpl; [reflexivity |].
  rewrite filter_app, IH. f_equal.
  clear IH. induction l' as [| b l' IH']; simpl; [reflexivity |].
  destruct (f (a, b)); simpl; rewrite IH'; reflexivity.
Qed.

Lemma filter_none {A} (f : A -> bool) (l : list A) :
  (forall x, In x l -> f x = false) -> filter f l = [].
Proof.
  induction l as [| x l IH]; intros H; simpl; [reflexivity |].
  rewrite (H x (or_introl eq_refl)). apply IH.
  intros y Hy. apply H. right. exact Hy.
Qed.

Lemma filter_below (a n : nat) :
  (a <= n)%nat -> filter (fun b => (b <? a)%nat) (seq 0 n) = seq 0 a.
Proof.
  intros Ha. replace n with (a + (n - a))%nat by lia.
  rewrite seq_app, filter_app. simpl.
  rewrite (forallb_filter_id (fun b => (b <? a)%nat) (seq 0 a)).
  - rewrite filter_none; [apply app_nil_r |].
    intros b Hb. apply in_seq in Hb. apply Nat.ltb_ge. lia.
  - apply forallb_forall. intros b Hb. apply in_seq in Hb.
    apply Nat.ltb_lt. lia.
Qed.

Lemma flat_map_ext_in {A B} (f g : A -> list B) (l : list A) :
  (forall a, In a l -> f a = g a) -> flat_map f l = flat_map g l.
Proof.
  induction l as [| a l IH]; intros H; simpl; [reflexivity |].
  rewrite (H a (or_introl eq_refl)), IH; [reflexivity |].
  intros b Hb. apply H. right. exact Hb.
Qed.

Lemma shown_cells_lower (n : nat) :
  shown_cells n = flat_map (fun i => map (pair i) (seq 0 i)) (seq 0 n).
Proof.
  unfold shown_cells. rewrite filter_list_prod.
  apply flat_map_ext_in. intros i Hi. apply in_seq in Hi. f_equal.
  rewrite <- (filter_below i n) by lia.
  apply filter_ext_in. intros j Hj. apply in_seq in Hj. cbn [fst snd].
  rewrite triangle_mask_at by lia.
  destruct (Nat.leb_spec i j), (Nat.ltb_spec j i); try reflexivity; lia.
Qed.

Lemma lower_cells_count (n : nat) :
  (2 * length (flat_map (fun i => map (pair i) (seq 0 i)) (seq 0 n))
   = n * (n - 1))%nat.
Proof.
  induction n as [| n IH]; [reflexivity |].
  rewrite seq_S, flat_map_app, length_app. simpl.
  rewrite app_nil_r, length_map, length_seq.
  destruct n; simpl in *; nia.
Qed.

(** X15.  The mask that [corr_triangle] hands to the heat map is set exactly on
    and above the diagonal.  So the heat map shows the cells below the
    diagonal and no other: of [n] variables, each pair of distinct
    variables once, [n (n - 1) / 2] cells, and no variable against
    itself. *)
Theorem triangle_mask_shows_lower (n : nat) :
  length (triangle_mask n) = n /\
  (forall i j, (i < n)%nat -> (j < n)%nat ->
               mask_at (triangle_mask n) i j = (i <=? j)%nat) /\
  (forall i j, In (i, j) (shown_cells n) <-> (j < i)%nat /\ (i < n)%nat) /\
  (2 * length (shown_cells n) = n * (n - 1))%nat.
Proof.
  split; [| split; [| split]].
  - unfold triangle_mask.
    assert (forall idx mask, length (fold_left set_true idx mask) = length mask)
      as Hfold.
    { induction idx as [| ij idx IH]; intros mask; simpl; [reflexivity |].
      rewrite IH. unfold set_true. apply length_update_nth. }
    rewrite Hfold. apply repeat_length.
  - intros i j. apply triangle_mask_at.
  - intros i j. rewrite shown_cells_lower, in_flat_map. split.
    + intros [a [Ha Hin]]. apply in_seq in Ha.
      apply in_map_iff in Hin as [b [E Hb]]. injection E as <- <-.
      apply in_seq in Hb. lia.
    + intros [Hji Hi]. exists i. split; [apply in_seq; lia |].
      apply in_map_iff. exists j. split; [reflexivity | apply in_seq; lia].
  - rewrite shown_cells_lower. apply lower_cells_count.
Qed.

(** * The panels and the random generator *)

Lemma new_figs_none (w w' : world) : figs w' = figs w -> new_figs w w' = [].
Proof.
  intros E. unfold new_figs. rewrite E, Nat.sub_diag. reflexivity.
Qed.

Lemma new_figs_one (w w' : world) (fg : figure) :
  figs w' = fg :: figs w -> new_figs w w' = [fg].
Proof.
  intros E. unfold new_figs. rewrite E. simpl length.
  replace (S (length (figs w)) - length (figs w))%nat with 1%nat by lia.
  reflexivity.
Qed.

Lemma new_figs_made (w : world) st fg dr dn :
  new_figs w (mkWorld st (fg :: figs w) dr dn) = [fg].
Proof. apply new_figs_one. reflexivity. Qed.

Lemma palette_pick_same (w1 w2 : world) :
  (forall j, draws w1 (drawn w1 + j) = draws w2 (drawn w2 + j)) ->
  forall k, palette_pick w1 k = palette_pick w2 k.
Proof.
  intros H k. unfold palette_pick. rewrite H. reflexivity.
Qed.

Lemma for_each_alike {A} (R : world -> world -> Prop) (body : A -> M unit)
    (xs : list A) :
  (forall x w1 w2, R w1 w2 ->
      fst (body x w1) = fst (body x w2) /\
      R (snd (body x w1)) (snd (body x w2))) ->
  forall w1 w2, R w1 w2 ->
    fst (for_each xs body w1) = fst (for_each xs body w2) /\
    R (snd (for_each xs body w1)) (snd (for_each xs body w2)).
Proof.
  intros Hbody. induction xs as [| x xs IH]; intros w1 w2 HR.
  - split; [reflexivity | exact HR].
  - simpl. unfold bind.
    destruct (Hbody x w1 w2 HR) as [Hr HR'].
    destruct (body x w1) as [r1 v1], (body x w2) as [r2 v2].
    cbn [fst snd] in Hr, HR'. subst r2.
    destruct r1 as [[] | e].
    + apply IH. exact HR'.
    + split; [reflexivity | exact HR'].
Qed.

Lemma hist_panel_body_alike rows cols cut data o1 o2 i w1 w2 :
  alike o1 o2 w1 w2 ->
  fst (hist_panel_body rows cols cut data i w1)
  = fst (hist_panel_body rows cols cut data i w2) /\
  alike o1 o2 (snd (hist_panel_body rows cols cut data i w1))
              (snd (hist_panel_body rows cols cut data i w2)).
Proof.
  intros (Hs & Hd & fg & H1 & H2).
  assert (forall j, draws w1 (S (drawn w1) + j) = draws w2 (S (drawn w2) + j))
    as Hd'.
  { intros j. rewrite !Nat.add_succ_comm. apply Hd. }
  destruct (position_ok rows cols (Layout.subplot_num i)) eqn:Hok.
  - rewrite (hist_panel_body_run rows cols cut data i w1 fg o1 Hok H1).
    rewrite (hist_panel_body_run rows cols cut data i w2 fg o2 Hok H2).
    rewrite (palette_pick_same w1 w2 Hd 0%nat).
    destruct (iloc data i) as [ds | e];
      [destruct (histogram_outcome ds) as [[] | e] |];
      cbn [fst snd]; (split; [reflexivity |]);
      (split; [exact Hs |]); (split; [assumption |]);
      eexists; split; reflexivity.
  - rewrite !hist_panel_body_refused by exact Hok. cbn [fst snd].
    split; [reflexivity |]. split; [exact Hs |]. split; [exact Hd |].
    exists fg. split; assumption.
Qed.

(** Two runs of [hist_panel] that start alike end alike. *)
Lemma hist_panel_alike data title cut w1 w2 :
  strict_sizes w1 = strict_sizes w2 ->
  (forall j, draws w1 (drawn w1 + j) = draws w2 (drawn w2 + j)) ->
  fst (hist_panel data title cut w1) = fst (hist_panel data title cut w2) /\
  new_figs w1 (snd (hist_panel data title cut w1))
  = new_figs w2 (snd (hist_panel data title cut w2)).
Proof.
  intros Hs Hd.
  unfold hist_panel, hist_panel_on, bind, lift, Layout.fig_rows.
  rewrite floordiv_nonzero by lia.
  set (rows := shape1 data / 2).
  destruct (figure_created_or_not w1 (rows * 4)) as [[Hstrict Hrows] | Hcreate].
  - assert (forall w, strict_sizes w = true ->
                      plt_subplots 1 1 (20, rows * 4) w = (Raise ValueError, w))
      as Hno.
    { intros w Hw. unfold plt_subplots. rewrite Hw. cbn [fst snd].
      destruct (Z.ltb_spec 0 (rows * 4)); [lia |].
      rewrite andb_false_r. reflexivity. }
    rewrite (Hno w1 Hstrict), (Hno w2) by congruence. cbn [fst snd].
    rewrite !new_figs_none by reflexivity. split; reflexivity.
  - rewrite (plt_subplots_one (20, rows * 4) w1 Hcreate eq_refl).
    rewrite (plt_subplots_one (20, rows * 4) w2)
      by (try reflexivity; rewrite <- Hs; exact Hcreate).
    set (v1 := set_figs w1 _). set (v2 := set_figs w2 _).
    assert (alike (figs w1) (figs w2) v1 v2) as Hv.
    { split; [exact Hs |]. split; [exact Hd |].
      eexists. split; reflexivity. }
    destruct (for_each_alike (alike (figs w1) (figs w2))
                (hist_panel_body rows 2 cut data) (range (shape1 data))
                (fun i u1 u2 =>
                   hist_panel_body_alike rows 2 cut data (figs w1) (figs w2)
                     i u1 u2)
                v1 v2 Hv) as [Hr Hend].
    destruct (for_each (range (shape1 data)) (hist_panel_body rows 2 cut data) v1)
      as [r1 u1].
    destruct (for_each (range (shape1 data)) (hist_panel_body rows 2 cut data) v2)
      as [r2 u2].
    cbn [fst snd] in Hr, Hend. subst r2.
    destruct Hend as (_ & _ & fg & E1 & E2).
    destruct r1 as [[] | e]; cbn [fst snd].
    + unfold suptitle, modify_fig. rewrite E1, E2. cbn [fst snd].
      split; [reflexivity |].
      unfold set_figs. rewrite !new_figs_made. reflexivity.
    + split; [reflexivity |].
      rewrite (new_figs_one w1 u1 fg E1), (new_figs_one w2 u2 fg E2).
      reflexivity.
Qed.

(** X10.  The figure a panel function builds, and whether it completes, depend on
    the state only through the draws the generator has in store (and on
    whether the library refuses empty figures): from two states that agree
    on these, with whatever earlier figures and however many draws already
    used, [hist_panel] and [box_plot] end alike and build the same figure,
    colours included. *)
Theorem panels_depend_on_generator_only (data : DataFrame) (title : string)
    (cut : bool) (w1 w2 : world) :
  strict_sizes w1 = strict_sizes w2 ->
  (forall j, draws w1 (drawn w1 + j) = draws w2 (drawn w2 + j)) ->
  fst (hist_panel data title cut w1) = fst (hist_panel data title cut w2) /\
  new_figs w1 (snd (hist_panel data title cut w1))
  = new_figs w2 (snd (hist_panel data title cut w2)) /\
  fst (box_plot data w1) = fst (box_plot data w2) /\
  new_figs w1 (snd (box_plot data w1)) = new_figs w2 (snd (box_plot data w2)).
Proof.
  intros Hs Hd.
  pose proof (palette_pick_same w1 w2 Hd) as Hpick.
  assert (forall rows m l, map (box_axes rows 2 w1 m) l
                           = map (box_axes rows 2 w2 m) l) as Hbox.
  { intros rows m l. apply map_ext. intros k. unfold box_axes.
    rewrite Hpick. reflexivity. }
  destruct (hist_panel_alike data title cut w1 w2 Hs Hd) as [Hr Hf].
  split; [exact Hr |]. split; [exact Hf |]. split.
  - destruct (Z_le_gt_dec (shape1 data) 1) as [Hsmall | Hbig].
    + rewrite !(box_plot_no_row data _ Hsmall). reflexivity.
    + destruct (Z_le_gt_dec (shape1 data) 3) as [Hrow | Hgrid].
      * rewrite !(box_plot_one_row data _ ltac:(lia)). reflexivity.
      * rewrite !(box_plot_with_grid data _ ltac:(lia)). reflexivity.
  - destruct (Z_le_gt_dec (shape1 data) 1) as [Hsmall | Hbig].
    + rewrite !(box_plot_no_row data _ Hsmall). rewrite Hs.
      destruct (strict_sizes w2); cbn [snd].
      * rewrite !new_figs_none by reflexivity. reflexivity.
      * unfold set_figs. rewrite !new_figs_made.
        reflexivity.
    + destruct (Z_le_gt_dec (shape1 data) 3) as [Hrow | Hgrid].
      * rewrite !(box_plot_one_row data _ ltac:(lia)). cbn [snd].
        unfold set_figs. rewrite !new_figs_made.
        reflexivity.
      * rewrite !(box_plot_with_grid data _ ltac:(lia)). cbn [snd].
        unfold set_figs. rewrite !new_figs_made.
        rewrite Hbox. reflexivity.
Qed.

Lemma panels_depend_on_generator_only_witness :
  let w1 := init_world true sample_draws in
  let w2 := mkWorld true [mkFigure (1, 1) [] None false]
                    (fun k => sample_draws (k - 3)) 3 in
  strict_sizes w1 = strict_sizes w2 /\
  (forall j, draws w1 (drawn w1 + j) = draws w2 (drawn w2 + j)) /\
  new_figs w1 (snd (hist_panel (numeric_frame 4) "panel" false w1))
  = new_figs w2 (snd (hist_panel (numeric_frame 4) "panel" false w2)).
Proof.
  intros w1 w2.
  assert (strict_sizes w1 = strict_sizes w2) as Hs by reflexivity.
  assert (forall j, draws w1 (drawn w1 + j) = draws w2 (drawn w2 + j)) as Hd.
  { intros j. unfold w1, w2, init_world. cbn [draws drawn].
    f_equal. lia. }
  split; [exact Hs |]. split; [exact Hd |].
  apply (panels_depend_on_generator_only (numeric_frame 4) "panel" false
           w1 w2 Hs Hd).
Defined.

(** * Further properties of [hist_panel] *)

(** X1.  On columns that can be drawn, [hist_panel] completes exactly when the
    number of columns is even, and, where the library refuses figures of
    height zero, not zero; every other such run ends with a
    [ValueError]. *)
Theorem hist_panel_completes_iff (data : DataFrame) (title : string)
    (cut : bool) (w : world) :
  plottable data ->
  (fst (hist_panel data title cut w) = Ok tt <->
   Z.even (shape1 data) = true /\ (shape1 data = 0 -> strict_sizes w = false)) /\
  (fst (hist_panel data title cut w) = Ok tt \/
   fst (hist_panel data title cut w) = Raise ValueError).
Proof.
  intros Hplot.
  pose proof (shape1_nonneg data) as Hn.
  pose proof (Z.div_mod (shape1 data) 2 ltac:(lia)) as Dn.
  pose proof (Z.mod_pos_bound (shape1 data) 2 ltac:(lia)) as Bn.
  assert (1 <= 2) as Hc by lia.
  unfold hist_panel.
  destruct (figure_created_or_not w (shape1 data / 2)) as [[Hs Hrows] | Hcreate].
  - rewrite (hist_panel_without_figure 2 data title cut w Hc Hs Hrows). simpl.
    split; [| right; reflexivity].
    split; [discriminate |].
    intros [Heven Hzero]. rewrite <- even_mod2 in Heven.
    apply Z.eqb_eq in Heven.
    assert (shape1 data = 0) as E by lia.
    rewrite (Hzero E) in Hs. discriminate.
  - rewrite (hist_panel_with_figure 2 data title cut w Hc Hplot Hcreate).
    cbn [fst]. rewrite even_mod2.
    destruct (Z.even (shape1 data)) eqn:Heven.
    + split; [| left; reflexivity].
      split; [| reflexivity]. intros _. split; [reflexivity |].
      intros Hzero. destruct Hcreate as [Hf | Hpos]; [exact Hf |].
      rewrite Hzero in Hpos. vm_compute in Hpos. discriminate Hpos.
    + split; [| right; reflexivity].
      split; [discriminate | intros [E _]; discriminate].
Qed.

Lemma hist_panel_completes_iff_witness :
  plottable (numeric_frame 4) /\
  fst (hist_panel (numeric_frame 4) "panel" false (init_world true sample_draws))
  = Ok tt /\
  plottable (numeric_frame 3) /\
  fst (hist_panel (numeric_frame 3) "panel" false (init_world true sample_draws))
  = Raise ValueError.
Proof.
  split; [apply numeric_frame_plottable |].
  split.
  - apply (hist_panel_completes_iff (numeric_frame 4) "panel" false
             (init_world true sample_draws) (numeric_frame_plottable 4)).
    split; [reflexivity |]. intros H. vm_compute in H. discriminate H.
  - split; [apply numeric_frame_plottable |].
    destruct (hist_panel_completes_iff (numeric_frame 3) "panel" false
                (init_world true sample_draws) (numeric_frame_plottable 3))
      as [Hiff [Hok | Hraise]]; [| exact Hraise].
    apply Hiff in Hok. destruct Hok as [Heven _].
    vm_compute in Heven. discriminate Heven.
Defined.

(** X2.  With an even number of at least two columns that can be drawn,
    [hist_panel] completes and leaves one new figure above the earlier
    ones: [20] wide and four times the number of rows high, titled
    [panel_title], holding the axes that [plt.subplots] created and then,
    for each column in order, an axes at position [k + 1] of the grid with
    one histogram of column [k] in the colour of the [k]-th draw; the
    generator has advanced by one draw per column. *)
Theorem hist_panel_even_figure (data : DataFrame) (title : string)
    (cut : bool) (w : world) :
  plottable data ->
  Z.even (shape1 data) = true -> 2 <= shape1 data ->
  let n := shape1 data in
  hist_panel data title cut w
  = (Ok tt,
     mkWorld (strict_sizes w)
       (mkFigure (20, n / 2 * 4)
          (mkAxes 1 1 1 [] :: map (hist_axes (n / 2) 2 cut w) (seq 0 (Z.to_nat n)))
          (Some title) false
        :: figs w)
       (draws w) (drawn w + Z.to_nat n)).
Proof.
  intros Hplot Heven Hn n.
  pose proof (Z.div_mod n 2 ltac:(lia)) as Dn.
  assert (n mod 2 = 0) as Hmod
    by (apply Z.eqb_eq; rewrite even_mod2; exact Heven).
  assert (n / 2 * 2 = n) as Hfull by lia.
  unfold hist_panel.
  rewrite (hist_panel_with_figure 2 data title cut w)
    by (try exact Hplot; fold n; lia).
  fold n. rewrite Hmod, Hfull. reflexivity.
Qed.

Lemma hist_panel_even_figure_witness :
  plottable (numeric_frame 4) /\
  Z.even (shape1 (numeric_frame 4)) = true /\
  2 <= shape1 (numeric_frame 4) /\
  let w := init_world true sample_draws in
  let w' := snd (hist_panel (numeric_frame 4) "panel" true w) in
  map fig_suptitle (figs w') = [Some "panel"%string] /\
  map (fun p => (art_var (snd p), ax_num (fst p))) (assigned w w')
  = [(0, 1); (1, 2); (2, 3); (3, 4)] /\
  drawn w' = 4%nat.
Proof.
  assert (Z.even (shape1 (numeric_frame 4)) = true) as Heven by reflexivity.
  assert (2 <= shape1 (numeric_frame 4)) as Hn by (vm_compute; discriminate).
  split; [apply numeric_frame_plottable |].
  split; [exact Heven |]. split; [exact Hn |].
  intros w w'. unfold w'.
  rewrite (hist_panel_even_figure (numeric_frame 4) "panel" true w
             (numeric_frame_plottable 4) Heven Hn).
  repeat split.
Defined.

(** X3.  With an odd number of at least three columns that can be drawn,
    [hist_panel] ends with a [ValueError] and leaves the figure it was
    building: untitled, with the histograms of all columns but the last; no
    colour was drawn for the last column. *)
Theorem hist_panel_odd_figure (data : DataFrame) (title : string)
    (cut : bool) (w : world) :
  plottable data ->
  Z.odd (shape1 data) = true -> 3 <= shape1 data ->
  let n := shape1 data in
  hist_panel data title cut w
  = (Raise ValueError,
     mkWorld (strict_sizes w)
       (mkFigure (20, n / 2 * 4)
          (mkAxes 1 1 1 []
           :: map (hist_axes (n / 2) 2 cut w) (seq 0 (Z.to_nat (n - 1))))
          None false
        :: figs w)
       (draws w) (drawn w + Z.to_nat (n - 1))).
Proof.
  intros Hplot Hodd Hn n. subst n.
  destruct (odd_half _ Hodd) as (Hr & _ & _).
  pose proof (Zmod_odd (shape1 data)) as Hmod. rewrite Hodd in Hmod.
  unfold hist_panel.
  rewrite (hist_panel_with_figure 2 data title cut w)
    by (try exact Hplot; lia).
  rewrite Hmod, Hr. reflexivity.
Qed.

Lemma hist_panel_odd_figure_witness :
  plottable (numeric_frame 5) /\
  Z.odd (shape1 (numeric_frame 5)) = true /\
  3 <= shape1 (numeric_frame 5) /\
  let w := init_world true sample_draws in
  let w' := snd (hist_panel (numeric_frame 5) "panel" false w) in
  fst (hist_panel (numeric_frame 5) "panel" false w) = Raise ValueError /\
  map fig_suptitle (figs w') = [None] /\
  map (fun p => art_var (snd p)) (assigned w w') = [0; 1; 2; 3] /\
  drawn w' = 4%nat.
Proof.
  assert (Z.odd (shape1 (numeric_frame 5)) = true) as Hodd by reflexivity.
  assert (3 <= shape1 (numeric_frame 5)) as Hn by (vm_compute; discriminate).
  split; [apply numeric_frame_plottable |].
  split; [exact Hodd |]. split; [exact Hn |].
  intros w w'. unfold w'.
  rewrite (hist_panel_odd_figure (numeric_frame 5) "panel" false w
             (numeric_frame_plottable 5) Hodd Hn).
  repeat split.
Defined.

Lemma for_each_ends {A} (I J : world -> Prop) (body : A -> M unit)
    (xs : list A) :
  (forall x w, I w ->
      match body x w with
      | (Ok _, w') => I w'
      | (Raise _, w') => J w'
      end) ->
  forall w, I w ->
    match for_each xs body w with
    | (Ok _, w') => I w'
    | (Raise _, w') => J w'
    end.
Proof.
  intros Hbody. induction xs as [| x xs IH]; intros w Hw.
  - exact Hw.
  - simpl. unfold bind. specialize (Hbody x w Hw).
    destruct (body x w) as [[[] | e] w1]; [apply IH; exact Hbody | exact Hbody].
Qed.

Lemma hist_panel_body_draws rows cols cut data w0 i w :
  draws_inv 0 w0 w ->
  match hist_panel_body rows cols cut data i w with
  | (Ok _, w') => draws_inv 0 w0 w'
  | (Raise _, w') => draws_inv 1 w0 w'
  end.
Proof.
  intros (Hs & Hd & fg & Hf & Hn).
  destruct (position_ok rows cols (Layout.subplot_num i)) eqn:Hok.
  - rewrite (hist_panel_body_run rows cols cut data i w fg (figs w0) Hok Hf).
    destruct (iloc data i) as [ds | e];
      [destruct (histogram_outcome ds) as [[] | e] |];
      lazy beta iota; (split; [exact Hs |]); (split; [exact Hd |]);
      eexists; (split; [reflexivity |]);
      rewrite plots_of_snoc, length_app; cbn [drawn ax_artists map length]; lia.
  - rewrite hist_panel_body_refused by exact Hok.
    lazy beta iota. split; [exact Hs |]. split; [exact Hd |].
    exists fg. split; [exact Hf | lia].
Qed.

(** X4.  Whatever its input, [hist_panel] leaves the earlier figures as they
    were and creates at most one figure; it takes from the random generator
    one draw for each histogram it has placed and at most one more, the
    colour drawn for a column whose histogram then fails, and none more
    when it completes. *)
Theorem hist_panel_frame (data : DataFrame) (title : string) (cut : bool)
    (w : world) :
  let w' := snd (hist_panel data title cut w) in
  strict_sizes w' = strict_sizes w /\
  draws w' = draws w /\
  (figs w' = figs w \/ exists fg, figs w' = fg :: figs w) /\
  (drawn w + length (assigned w w') <= drawn w'
   <= drawn w + length (assigned w w') + 1)%nat /\
  (fst (hist_panel data title cut w) = Ok tt ->
   drawn w' = (drawn w + length (assigned w w'))%nat).
Proof.
  unfold hist_panel, hist_panel_on, bind, lift, Layout.fig_rows.
  rewrite floordiv_nonzero by lia.
  set (rows := shape1 data / 2).
  destruct (figure_created_or_not w (rows * 4)) as [[Hstrict Hrows] | Hcreate].
  - assert (plt_subplots 1 1 (20, rows * 4) w = (Raise ValueError, w)) as ->.
    { unfold plt_subplots. rewrite Hstrict. cbn [fst snd].
      destruct (Z.ltb_spec 0 (rows * 4)); [lia |].
      rewrite andb_false_r. reflexivity. }
    cbn [fst snd]. rewrite (assigned_none w w eq_refl). cbn [length].
    split; [reflexivity |]. split; [reflexivity |].
    split; [left; reflexivity |]. split; [lia | discriminate].
  - rewrite (plt_subplots_one (20, rows * 4) w Hcreate eq_refl).
    set (v := set_figs w _).
    assert (draws_inv 0 w v) as Hv.
    { split; [reflexivity |]. split; [reflexivity |].
      eexists. split; [reflexivity |]. simpl. lia. }
    pose proof (for_each_ends (draws_inv 0 w) (draws_inv 1 w)
                  (hist_panel_body rows 2 cut data) (range (shape1 data))
                  (fun i u => hist_panel_body_draws rows 2 cut data w i u)
                  v Hv) as Hloop.
    destruct (for_each (range (shape1 data)) (hist_panel_body rows 2 cut data) v)
      as [[[] | e] u]; destruct Hloop as (Hs & Hd & fg & Hf & Hn).
    + unfold suptitle, modify_fig. rewrite Hf. cbn [fst snd].
      set (u' := set_figs u _).
      rewrite (assigned_one w u' _ eq_refl).
      unfold plots_of in *. cbn [fig_axes drawn u' set_figs].
      repeat split; try assumption; try lia. right. eexists. reflexivity.
    + cbn [fst snd]. rewrite (assigned_one w u fg Hf).
      repeat split; try assumption; try lia;
        [right; exists fg; exact Hf | discriminate].
Qed.

(** X16.  A column that [hist_plot] cannot draw ends the run of [hist_panel]
    with the exception of the histogram, a [TypeError] for text and a
    [ValueError] for a column without a value: when the columns before
    column [k] can be drawn and position [k + 1] lies in the grid, the run
    leaves the untitled figure with the histograms of the columns before
    [k] and an empty axes at position [k + 1], and the generator has given
    one draw more than there are histograms, the colour of the plot that
    failed. *)
Theorem hist_panel_undrawable_column (data : DataFrame) (title : string)
    (cut : bool) (w : world) (k : nat) (ds : Series) (e : exn) :
  Z.of_nat k < shape1 data / 2 * 2 ->
  (forall j, (j < k)%nat ->
             exists d, iloc data (Z.of_nat j) = Ok d /\
                       histogram_outcome d = Ok tt) ->
  iloc data (Z.of_nat k) = Ok ds ->
  histogram_outcome ds = Raise e ->
  let rows := shape1 data / 2 in
  (e = TypeError \/ e = ValueError) /\
  hist_panel data title cut w
  = (Raise e,
     mkWorld (strict_sizes w)
       (mkFigure (20, rows * 4)
          (mkAxes 1 1 1 []
           :: map (hist_axes rows 2 cut w) (seq 0 k)
              ++ [mkAxes rows 2 (Z.of_nat k + 1) []])
          None false
        :: figs w)
       (draws w) (S (drawn w + k))).
Proof.
  intros Hk Hbefore Hds Hout rows.
  pose proof (shape1_nonneg data) as Hn.
  pose proof (Z.div_mod (shape1 data) 2 ltac:(lia)) as Dn. fold rows in Dn.
  pose proof (Z.mod_pos_bound (shape1 data) 2 ltac:(lia)) as Bn.
  fold rows in Hk.
  split.
  { unfold histogram_outcome in Hout.
    destruct (existsb is_str ds || (existsb is_int ds && existsb is_datetime ds));
      [injection Hout as <-; left; reflexivity |].
    destruct (existsb has_value ds); [discriminate |].
    injection Hout as <-. right. reflexivity. }
  unfold hist_panel, hist_panel_on, bind, lift, Layout.fig_rows.
  rewrite floordiv_nonzero by lia. fold rows.
  assert (strict_sizes w = false \/ 0 < snd (20, rows * 4)) as Hsize
    by (right; cbn [snd]; lia).
  rewrite (plt_subplots_one (20, rows * 4) w Hsize eq_refl).
  set (w1 := set_figs w _).
  destruct (range_split (shape1 data) (Z.of_nat k) ltac:(lia)) as [rest ->].
  rewrite for_each_app. unfold bind.
  assert (range (Z.of_nat k) = map Z.of_nat (seq 0 k)) as ->
    by (unfold range; rewrite Nat2Z.id; reflexivity).
  rewrite (hist_loop_drawn rows 2 cut data w (figs w) k 0%nat w1 _
             eq_refl eq_refl (eq_sym (Nat.add_0_r _))).
  2:{ intros j Hj. apply in_seq in Hj.
      split; [apply Hbefore; lia |].
      unfold position_ok. compare_cases. }
  simpl for_each. unfold bind.
  set (w2 := mkWorld _ _ _ _).
  assert (position_ok rows 2 (Layout.subplot_num (Z.of_nat k)) = true) as Hpos
    by (unfold position_ok, Layout.subplot_num; compare_cases).
  rewrite (hist_panel_body_run rows 2 cut data (Z.of_nat k) w2 _ (figs w)
             Hpos eq_refl).
  rewrite Hds, Hout. unfold w2, w1, set_figs, set_axes, Layout.subplot_num.
  cbn [strict_sizes figs draws drawn fig_axes fig_size fig_suptitle
       fig_despined app].
  reflexivity.
Qed.

Lemma hist_panel_undrawable_column_witness :
  let w := init_world false sample_draws in
  let w' := snd (hist_panel text_frame "panel" false w) in
  iloc text_frame 1 = Ok [Str "a"; Str "b"; Str "a"] /\
  histogram_outcome [Str "a"; Str "b"; Str "a"] = Raise TypeError /\
  fst (hist_panel text_frame "panel" false w) = Raise TypeError /\
  map (fun p => art_var (snd p)) (assigned w w') = [0] /\
  drawn w' = 2%nat.
Proof.
  intros w w'.
  assert (Z.of_nat 1 < shape1 text_frame / 2 * 2) as Hk by (vm_compute; reflexivity).
  assert (forall j, (j < 1)%nat ->
                    exists d, iloc text_frame (Z.of_nat j) = Ok d /\
                              histogram_outcome d = Ok tt) as Hbefore.
  { intros j Hj. assert (j = 0%nat) as -> by lia.
    eexists. split; reflexivity. }
  assert (iloc text_frame (Z.of_nat 1) = Ok [Str "a"; Str "b"; Str "a"])
    as Hds by reflexivity.
  assert (histogram_outcome [Str "a"; Str "b"; Str "a"] = Raise TypeError)
    as Hout by reflexivity.
  split; [exact Hds |]. split; [exact Hout |].
  destruct (hist_panel_undrawable_column text_frame "panel" false w 1 _ _
              Hk Hbefore Hds Hout) as [_ Hrun].
  unfold w'. rewrite Hrun. repeat split.
Defined.

(** * Further properties of [box_plot] *)

(** X5.  [box_plot] completes exactly when the number of columns is even and at
    least four.  With at most one column the grid has no row and the run
    ends with the [ValueError] of [plt.subplots]; every other run, on two
    columns or on an odd number of them, ends with an [IndexError]. *)
Theorem box_plot_completes_iff (data : DataFrame) (w : world) :
  (fst (box_plot data w) = Ok tt <->
   Z.even (shape1 data) = true /\ 4 <= shape1 data) /\
  (fst (box_plot data w) = Raise ValueError <-> shape1 data <= 1) /\
  (fst (box_plot data w) = Raise IndexError <->
   2 <= shape1 data /\ (shape1 data = 2 \/ Z.odd (shape1 data) = true)).
Proof.
  pose proof (shape1_nonneg data) as Hn0.
  destruct (Z_le_gt_dec (shape1 data) 1) as [Hsmall | Hbig].
  - rewrite (box_plot_no_row data w Hsmall). cbn [fst].
    split; [| split].
    + split; [discriminate | intros [_ H]; lia].
    + split; [intros _; exact Hsmall | reflexivity].
    + split; [discriminate | intros [H _]; lia].
  - destruct (Z_le_gt_dec (shape1 data) 3) as [Hrow | Hgrid].
    + rewrite (box_plot_one_row data w ltac:(lia)). cbn [fst].
      split; [| split].
      * split; [discriminate | intros [_ H]; lia].
      * split; [discriminate | lia].
      * split; [| reflexivity]. intros _. split; [lia |].
        destruct (Z.eq_dec (shape1 data) 2) as [E | E]; [left; exact E |].
        right. assert (shape1 data = 3) as -> by lia. reflexivity.
    + rewrite (box_plot_with_grid data w ltac:(lia)). cbn [fst].
      rewrite <- Z.negb_even.
      destruct (Z.even (shape1 data)); cbn [negb].
      * split; [| split].
        -- split; [| reflexivity]. intros _. split; [reflexivity | lia].
        -- split; [discriminate | lia].
        -- split; [discriminate |].
           intros [_ [H | H]]; [lia | discriminate].
      * split; [| split].
        -- split; [discriminate | intros [H _]; discriminate].
        -- split; [discriminate | lia].
        -- split; [| reflexivity]. intros _. split; [lia |].
           right. reflexivity.
Qed.

(** * The exceptions of [read_data] *)

(** X11.  When the file loads, the exceptions of [read_data] are a [KeyError]
    for a missing date column and what [pd.to_datetime] raises on a date
    column of the rows kept, decided in the order of the code: the column
    [date_posted] is looked up and parsed before [datefullyfunded] is looked
    up, and with [drop_na] only the rows kept are parsed. *)
Theorem read_data_exceptions (env : storage) (file_name : string)
    (drop_na : bool) (log : list string) (loaded : DataFrame) :
  csv_at env (INPUT_DIR ++ file_name) = Ok loaded ->
  let kept := if drop_na then dropna loaded else loaded in
  let outcome := fst (read_data env file_name drop_na log) in
  (~ In "date_posted"%string (columns loaded) -> outcome = Raise KeyError) /\
  (forall s1 e,
      getitem kept "date_posted" = Ok s1 ->
      pd_to_datetime env s1 = Raise e ->
      outcome = Raise e) /\
  (forall s1 s1',
      getitem kept "date_posted" = Ok s1 -> pd_to_datetime env s1 = Ok s1' ->
      ~ In "datefullyfunded"%string (columns loaded) ->
      outcome = Raise KeyError) /\
  (forall s1 s1' s2 e,
      getitem kept "date_posted" = Ok s1 -> pd_to_datetime env s1 = Ok s1' ->
      getitem kept "datefullyfunded" = Ok s2 ->
      pd_to_datetime env s2 = Raise e ->
      outcome = Raise e) /\
  (forall e,
      outcome = Raise e ->
      (e = KeyError /\
       (~ In "date_posted"%string (columns loaded) \/
        ~ In "datefullyfunded"%string (columns loaded))) \/
      (exists s,
          (getitem kept "date_posted" = Ok s \/
           getitem kept "datefullyfunded" = Ok s) /\
          pd_to_datetime env s = Raise e)).
Proof.
  intros Hload kept outcome.
  assert (String.eqb "date_posted" "datefullyfunded" = false) as Hdistinct
    by reflexivity.
  apply String.eqb_neq in Hdistinct.
  assert (columns kept = columns loaded) as Hcols
    by (unfold kept; destruct drop_na; [apply columns_dropna | reflexivity]).
  assert (outcome
          = result_bind (parse_column env kept "date_posted")
              (fun data => parse_column env data "datefullyfunded")) as ->.
  { unfold outcome, read_data, read_csv. rewrite Hload. reflexivity. }
  split; [| split; [| split; [| split]]].
  - intros Hnot. unfold parse_column at 1.
    rewrite getitem_missing by (rewrite Hcols; exact Hnot). reflexivity.
  - intros s1 e Hg Ht. unfold parse_column at 1.
    rewrite Hg. simpl. rewrite Ht. reflexivity.
  - intros s1 s1' Hg Ht Hnot. unfold parse_column at 1.
    rewrite Hg. simpl. rewrite Ht. simpl. unfold parse_column.
    rewrite getitem_setitem_other by exact Hdistinct.
    rewrite getitem_missing by (rewrite Hcols; exact Hnot). reflexivity.
  - intros s1 s1' s2 e Hg1 Ht1 Hg2 Ht2. unfold parse_column at 1.
    rewrite Hg1. simpl. rewrite Ht1. simpl. unfold parse_column.
    rewrite getitem_setitem_other by exact Hdistinct.
    rewrite Hg2. simpl. rewrite Ht2. reflexivity.
  - intros e. unfold parse_column at 1.
    destruct (getitem kept "date_posted") as [s1 | e1] eqn:Hg1; simpl.
    2:{ intros E. injection E as <-.
        destruct (proj2 (getitem_in_columns _ _) e1 Hg1) as [-> Hnot].
        left. split; [reflexivity |]. left. rewrite <- Hcols. exact Hnot. }
    destruct (pd_to_datetime env s1) as [s1' | e1] eqn:Ht1; simpl.
    2:{ intros E. injection E as <-. right.
        exists s1. split; [left; reflexivity | exact Ht1]. }
    unfold parse_column.
    rewrite getitem_setitem_other by exact Hdistinct.
    destruct (getitem kept "datefullyfunded") as [s2 | e2] eqn:Hg2; simpl.
    2:{ intros E. injection E as <-.
        destruct (proj2 (getitem_in_columns _ _) e2 Hg2) as [-> Hnot].
        left. split; [reflexivity |]. right. rewrite <- Hcols. exact Hnot. }
    destruct (pd_to_datetime env s2) as [s2' | e2] eqn:Ht2; simpl.
    2:{ intros E. injection E as <-. right.
        exists s2. split; [right; reflexivity | exact Ht2]. }
    discriminate.
Qed.

Lemma read_data_exceptions_witness :
  csv_at sample_storage_errors (INPUT_DIR ++ "baddates.csv")
  = Ok [ ("date_posted"%string, [Str "soon"; Str "2013-01-01"]);
         ("datefullyfunded"%string, [Str "2013-02-01"; Str "2013-02-02"]) ] /\
  fst (read_data sample_storage_errors "baddates.csv" true []) = Raise ValueError /\
  fst (read_data sample_storage_errors "nodates.csv" false []) = Raise KeyError.
Proof.
  assert (csv_at sample_storage_errors (INPUT_DIR ++ "baddates.csv")
          = Ok [ ("date_posted"%string, [Str "soon"; Str "2013-01-01"]);
                 ("datefullyfunded"%string, [Str "2013-02-01"; Str "2013-02-02"]) ])
    as Hload by reflexivity.
  split; [exact Hload |]. split; [| reflexivity].
  destruct (read_data_exceptions sample_storage_errors "baddates.csv" true []
              _ Hload) as (_ & Hbad & _).
  apply (Hbad [Str "soon"; Str "2013-01-01"] ValueError); reflexivity.
Defined.
